(** * Dynamic pricing service: a shallow embedding of [main.py]

    The service keeps an in-memory dictionary [pricing_db] and exposes a
    webhook that recomputes one product's price from simulated market data,
    plus three read endpoints.

    Python values are modelled as the interpreter has them:
    - a Python [float] is an IEEE 754 binary64 number, here Rocq's primitive
      [float] (same format, same rounding of [*], [+], [-], same comparisons);
    - the builtins [min], [max], [round(x, 2)], truthiness and the [in]
      operator are written out below with CPython's behaviour;
    - the parsed request body is a JSON value; exceptions are values of
      [Exn], and a handler is a state-and-exception computation over the
      pricing dictionary. *)

From Stdlib Require Import Ascii String ZArith Floats Lia List Bool.
From Stdlib Require Uint63.
From stdpp Require Import gmap strings.
Import ListNotations.

Set Warnings "-inexact-float,-register-all".

(* ===================================================================== *)
(** * Python builtins on floats *)
(* ===================================================================== *)

Module Py.

(** [min(a, b)]: the running result [a] is replaced by [b] only when
    [b < a]; with a NaN operand every comparison is false. *)
Definition min (a b : float) : float := if (b <? a)%float then b else a.

(** [max(a, b)]: the running result [a] is replaced by [b] only when
    [b > a]. *)
Definition max (a b : float) : float := if (a <? b)%float then b else a.

(** Nearest integer to [n / d] for [0 <= n], [0 < d], ties to the even
    integer. *)
Definition div_half_even (n d : Z) : Z :=
  let q := (n / d)%Z in
  match (2 * (n mod d) ?= d)%Z with
  | Lt => q
  | Gt => (q + 1)%Z
  | Eq => if Z.even q then q else (q + 1)%Z
  end.

(** Nearest integer to [100 * m * 2^e], the exact count of hundredths in a
    finite float of mantissa [m] and exponent [e], ties to even. *)
Definition hundredths (m : positive) (e : Z) : Z :=
  match e with
  | Zneg k => div_half_even (100 * Zpos m) (2 ^ Zpos k)
  | _ => (100 * Zpos m * 2 ^ e)%Z
  end.

(** [round(x, 2)] on a float.  CPython converts [x] to the decimal string
    with two digits after the point that is nearest to the exact binary
    value (ties to even), and reads that string back as the nearest
    binary64 number; infinities and NaN are returned unchanged, and a
    result of zero keeps the sign of [x]. *)
Definition round2 (x : float) : float :=
  match Prim2SF x with
  | S754_finite s m e =>
      match hundredths m e with
      | Zpos n =>
          SF2Prim (SFdiv prec emax (S754_finite s n 0) (S754_finite false 100 0))
      | _ => if s then neg_zero else zero
      end
  | _ => x
  end.

(** [needle in hay] on two strings: substring test. *)
Fixpoint str_contains (needle hay : string) : bool :=
  String.prefix needle hay ||
  match hay with
  | EmptyString => false
  | String _ rest => str_contains needle rest
  end.

(** [random.uniform(a, b)] is [a + (b - a) * random()], where [u] is the
    draw of [random()]. *)
Definition uniform (a b u : float) : float := (a + (b - a) * u)%float.

(** [random.choice(seq)] is [seq[i]] for the drawn index [i < len(seq)]. *)
Definition choice {A} (seq : list A) (i : nat) (d : A) : A := nth i seq d.

(** The naive [datetime] objects returned by [datetime.datetime.now()]. *)
Record datetime := {
  year : nat; month : nat; day : nat;
  hour : nat; minute : nat; second : nat; microsecond : nat
}.

Local Infix "^^" := String.append (at level 60, right associativity).

Definition digit (n : nat) : Ascii.ascii :=
  Ascii.ascii_of_nat (48 + n mod 10).

(** ["%0wd" % n] for [n < 10^w]: the [w] decimal digits of [n]. *)
Fixpoint zpad (w n : nat) : string :=
  match w with
  | O => EmptyString
  | S w' => (zpad w' (n / 10) ^^ String (digit n) EmptyString)%string
  end.

(** [datetime.isoformat()]: [YYYY-MM-DDTHH:MM:SS], followed by [.ffffff]
    when the microsecond field is not zero. *)
Definition isoformat (t : datetime) : string :=
  (zpad 4 (year t) ^^ "-" ^^ zpad 2 (month t) ^^ "-" ^^ zpad 2 (day t)
   ^^ "T" ^^ zpad 2 (hour t) ^^ ":" ^^ zpad 2 (minute t) ^^ ":"
   ^^ zpad 2 (second t)
   ^^ (if Nat.eqb (microsecond t) 0 then ""
        else "." ^^ zpad 6 (microsecond t)))%string.

Definition is_digit (c : Ascii.ascii) : bool :=
  let n := Ascii.nat_of_ascii c in Nat.leb 48 n && Nat.leb n 57.

Fixpoint all_digits (s : string) : bool :=
  match s with
  | EmptyString => true
  | String c rest => is_digit c && all_digits rest
  end.

(** Recogniser of the ISO 8601 extended format of a local date and time,
    [YYYY-MM-DDThh:mm:ss] with an optional fraction of six digits. *)
Definition is_iso8601 (s : string) : bool :=
  match s with
  | String y1 (String y2 (String y3 (String y4 (String "-"%char
    (String m1 (String m2 (String "-"%char (String d1 (String d2 (String "T"%char
    (String h1 (String h2 (String ":"%char (String n1 (String n2 (String ":"%char
    (String s1 (String s2 rest)))))))))))))))))) =>
      forallb is_digit [y1; y2; y3; y4; m1; m2; d1; d2; h1; h2; n1; n2; s1; s2]
      && match rest with
         | EmptyString => true
         | String "."%char frac => Nat.eqb (String.length frac) 6 && all_digits frac
         | _ => false
         end
  | _ => false
  end.

End Py.

(* ===================================================================== *)
(** * Market data and the price adjustment *)
(* ===================================================================== *)

(** The dictionary built by [get_market_data]. *)
Record MarketData := {
  demand : float;
  competitor_price : float;
  trend : string
}.

(** The three draws [get_market_data] takes from the [random] module, in
    the order the dictionary literal evaluates them. *)
Record Draws := {
  draw_demand : float;      (* random() inside uniform(0.5, 2.0) *)
  draw_competitor : float;  (* random() inside uniform(80, 120) *)
  draw_trend : nat          (* index picked by choice([...]) *)
}.

Definition get_market_data (r : Draws) : MarketData :=
  {| demand := Py.uniform 0.5 2.0 (draw_demand r);
     competitor_price := Py.uniform 80 120 (draw_competitor r);
     trend := Py.choice ["rising"; "falling"; "stable"] (draw_trend r) "stable" |}.

Definition adjust_price (current_price : float) (market_data : MarketData) : float :=
  let new_price := (current_price * demand market_data)%float in
  let new_price :=
    if String.eqb (trend market_data) "rising" then (new_price * 1.1)%float
    else if String.eqb (trend market_data) "falling" then (new_price * 0.9)%float
    else new_price in
  (* Keep within competitor range *)
  let new_price :=
    Py.max (competitor_price market_data * 0.9)%float
           (Py.min new_price (competitor_price market_data * 1.1)%float) in
  Py.round2 new_price.

(** The value of [new_price] when [adjust_price] reaches the clamp. *)
Definition unclamped_price (current_price : float) (market_data : MarketData) : float :=
  let new_price := (current_price * demand market_data)%float in
  if String.eqb (trend market_data) "rising" then (new_price * 1.1)%float
  else if String.eqb (trend market_data) "falling" then (new_price * 0.9)%float
  else new_price.

(** The clamp leaves a price alone when it lies in the competitor window. *)
Definition in_window (current_price : float) (market_data : MarketData) : bool :=
  (competitor_price market_data * 0.9 <=? unclamped_price current_price market_data)%float
  && (unclamped_price current_price market_data <=? competitor_price market_data * 1.1)%float.


(** The reading of the specification's price-adjustment algorithm, step by
    step, on a typed snapshot.  It is compared with [adjust_price] below. *)
Module Reference.

Inductive Trend := Rising | Falling | Stable.

Record Snapshot := {
  s_demand : float;
  s_competitor_price : float;
  s_trend : Trend
}.

Definition trend_name (t : Trend) : string :=
  match t with
  | Rising => "rising"
  | Falling => "falling"
  | Stable => "stable"
  end.

(** The dictionary that carries a snapshot. *)
Definition to_market_data (s : Snapshot) : MarketData :=
  {| demand := s_demand s;
     competitor_price := s_competitor_price s;
     trend := trend_name (s_trend s) |}.


(** The two ways of rounding a half that the specification accepts. *)
Inductive Rounding := HalfToEven | HalfAwayFromZero.

(** The integer nearest to the fraction [N / D] of a magnitude, for
    [0 <= N] and [0 < D]: the floor of [N / D + 1/2], which sends a half
    away from zero; with [HalfToEven] a half goes to the even neighbour
    instead. *)
Definition nearest (r : Rounding) (N D : Z) : Z :=
  let up := ((2 * N + D) / (2 * D))%Z in
  match r with
  | HalfAwayFromZero => up
  | HalfToEven =>
      if ((2 * N + D) mod (2 * D) =? 0)%Z && Z.odd up then (up - 1)%Z else up
  end.

(** Rounding to two decimal places: the magnitude [m * 2^e] of a finite
    price is the fraction [100 * m * 2^e / 1] or [100 * m / 2^(-e)] of a
    hundredth; the rounded price is the float nearest to the nearest count
    of hundredths divided by 100, with the sign of the price.  Infinities
    and NaN have no decimal places and are left as they are. *)
Definition round_2dp (r : Rounding) (x : float) : float :=
  match Prim2SF x with
  | S754_finite s m e =>
      match nearest r (100 * Z.pos m * 2 ^ Z.max 0 e) (2 ^ Z.max 0 (- e)) with
      | Z.pos n =>
          SF2Prim (SFdiv prec emax (S754_finite s n 0) (S754_finite false 100 0))
      | _ => if s then neg_zero else zero
      end
  | _ => x
  end.


(** A Market Snapshot of the data model: demand in [[0.5, 2.0)] and
    competitor price in [[80, 120)]. *)
Definition in_range (s : Snapshot) : Prop :=
  (0.5 <=? s_demand s)%float = true /\ (s_demand s <? 2.0)%float = true /\
  (80 <=? s_competitor_price s)%float = true /\
  (s_competitor_price s <? 120)%float = true.

End Reference.

(* ===================================================================== *)
(** * JSON values, exceptions and the pricing dictionary *)
(* ===================================================================== *)

(** What [json.loads] returns: [None], [bool], [int], [float], [str],
    [list] and [dict] (a [dict] has distinct keys; lookups below take the
    first binding). *)
Inductive json :=
| JNull
| JBool (b : bool)
| JInt (n : Z)
| JFloat (f : float)
| JStr (s : string)
| JList (items : list json)
| JObj (fields : list (string * json)).

(** The [detail] of an [HTTPException]: a fixed text, or the f-string
    ["Product not found: {product_id}"], kept with the value it formats. *)
Inductive Detail :=
| Text (s : string)
| ProductNotFoundText (product_id : json).

Inductive Exn :=
| HTTPException (status_code : Z) (detail : Detail)
| TypeError
| AttributeError
| KeyError
| RequestBodyError.   (* anything [request.json()] raises *)

Inductive Result (A : Type) :=
| Ok (a : A)
| Raise (e : Exn).
Arguments Ok {A} a.
Arguments Raise {A} e.

(** The error taxonomy of the service, as the exceptions the code raises. *)
Definition InvalidContentType : Exn :=
  HTTPException 400 (Text "Content-Type must be application/json").
Definition MalformedJSON : Exn :=
  HTTPException 400 (Text "Invalid JSON format").
Definition MissingField : Exn :=
  HTTPException 400 (Text "Missing required field: product_id").
Definition ProductNotFound (product_id : json) : Exn :=
  HTTPException 404 (ProductNotFoundText product_id).
Definition InternalError : Exn :=
  HTTPException 500 (Text "Internal server error").

(** Truth value of a parsed body, as [not data] tests it. *)
Definition truthy (v : json) : bool :=
  match v with
  | JNull => false
  | JBool b => b
  | JInt n => negb (n =? 0)%Z
  | JFloat f => negb (f =? 0)%float
  | JStr s => negb (String.eqb s "")
  | JList items => negb (Nat.eqb (length items) 0)
  | JObj fields => negb (Nat.eqb (length fields) 0)
  end.

(** [key in data] for a string [key]: key membership on a dict, element
    membership on a list, substring on a string; the other values are not
    containers and the operator raises [TypeError]. *)
Definition py_in (key : string) (data : json) : Result bool :=
  match data with
  | JObj fields => Ok (existsb (fun kv => String.eqb (fst kv) key) fields)
  | JList items =>
      Ok (existsb (fun x => match x with JStr s => String.eqb s key | _ => false end)
                  items)
  | JStr s => Ok (Py.str_contains key s)
  | _ => Raise TypeError
  end.

(** [data.get(key)]: only a dict has the method; a missing key gives [None]. *)
Definition py_get (data : json) (key : string) : Result json :=
  match data with
  | JObj fields =>
      Ok match find (fun kv => String.eqb (fst kv) key) fields with
         | Some kv => snd kv
         | None => JNull
         end
  | _ => Raise AttributeError
  end.

(** One entry of [pricing_db]: the inner dictionary with its two keys. *)
Record PriceRecord := {
  price : float;
  last_updated : Py.datetime
}.

(** [pricing_db] at import time; the two [datetime.now()] calls of the
    dictionary literal are [t1] and [t2]. *)
Definition pricing_db_init (t1 t2 : Py.datetime) : gmap string PriceRecord :=
  <["product2" := {| price := 50.0; last_updated := t2 |}]>
    (<["product1" := {| price := 100.0; last_updated := t1 |}]> ∅).

(** A state-and-exception computation over the pricing dictionary: the
    dictionary is threaded through, and survives a raised exception. *)
Definition M (A : Type) : Type :=
  gmap string PriceRecord -> Result A * gmap string PriceRecord.

Definition ret {A} (a : A) : M A := fun db => (Ok a, db).
Definition raise {A} (e : Exn) : M A := fun db => (Raise e, db).
Definition bind {A B} (m : M A) (k : A -> M B) : M B :=
  fun db =>
    match m db with
    | (Ok a, db') => k a db'
    | (Raise e, db') => (Raise e, db')
    end.
Definition lift {A} (r : Result A) : M A := fun db => (r, db).

(** [try: body  except ...: handler]. *)
Definition try_except {A} (body : M A) (handler : Exn -> M A) : M A :=
  fun db =>
    match body db with
    | (Ok a, db') => (Ok a, db')
    | (Raise e, db') => handler e db'
    end.

#[global] Instance M_ret : MRet M := @ret.
#[global] Instance M_bind : MBind M := fun A B k m => bind m k.

(** [key in pricing_db]: hashing a list or a dict raises [TypeError]; a
    value that is not a string equals no key. *)
Definition db_contains (key : json) : M bool :=
  fun db =>
    match key with
    | JList _ | JObj _ => (Raise TypeError, db)
    | JStr s => (Ok (bool_decide (is_Some (db !! s))), db)
    | _ => (Ok false, db)
    end.

(** [pricing_db[key]]. *)
Definition db_getitem (key : json) : M PriceRecord :=
  fun db =>
    match key with
    | JList _ | JObj _ => (Raise TypeError, db)
    | JStr s =>
        match db !! s with
        | Some r => (Ok r, db)
        | None => (Raise KeyError, db)
        end
    | _ => (Raise KeyError, db)
    end.

(** [pricing_db[key]["price"] = v]: the inner dictionary is fetched and
    its entry overwritten in place. *)
Definition db_set_price (key : json) (v : float) : M unit :=
  fun db =>
    match key with
    | JList _ | JObj _ => (Raise TypeError, db)
    | JStr s =>
        match db !! s with
        | Some r =>
            (Ok tt, <[s := {| price := v; last_updated := last_updated r |}]> db)
        | None => (Raise KeyError, db)
        end
    | _ => (Raise KeyError, db)
    end.

(** [pricing_db[key]["last_updated"] = t]. *)
Definition db_set_last_updated (key : json) (t : Py.datetime) : M unit :=
  fun db =>
    match key with
    | JList _ | JObj _ => (Raise TypeError, db)
    | JStr s =>
        match db !! s with
        | Some r => (Ok tt, <[s := {| price := price r; last_updated := t |}]> db)
        | None => (Raise KeyError, db)
        end
    | _ => (Raise KeyError, db)
    end.

(* ===================================================================== *)
(** * The endpoints *)
(* ===================================================================== *)

(** What a handler reads of a request: the headers (names in lower case,
    as the server hands them over) and the outcome of [request.json()]. *)
Record Request := {
  headers : list (string * string);
  request_json : Result json
}.

(** [request.headers.get(name, default)]. *)
Definition headers_get (hs : list (string * string)) (name default : string) : string :=
  match find (fun kv => String.eqb (fst kv) name) hs with
  | Some kv => snd kv
  | None => default
  end.

(** What one webhook call takes from outside the request: the random
    draws and the two clock readings. *)
Record Env := {
  draws : Draws;
  now_update : Py.datetime;     (* datetime.now() stored in last_updated *)
  now_response : Py.datetime    (* datetime.now() of the response *)
}.

(** The dictionary returned by the webhook on success. *)
Record UpdateResponse := {
  r_product_id : json;
  r_old_price : float;
  r_new_price : float;
  r_market_data : MarketData;
  r_timestamp : string
}.

Definition market_update_webhook (request : Request) (env : Env) : M UpdateResponse :=
  try_except
    ((* Check if content type is JSON *)
     let content_type := headers_get (headers request) "content-type" "" in
     (if negb (Py.str_contains "application/json" content_type)
      then raise (HTTPException 400 (Text "Content-Type must be application/json"))
      else ret tt) ;;
     (* Try to parse JSON body *)
     data ← try_except (lift (request_json request))
               (fun _ => raise (HTTPException 400 (Text "Invalid JSON format"))) ;
     (* Validate required fields *)
     missing ← (if negb (truthy data) then ret true
                 else b ← lift (py_in "product_id" data) ; ret (negb b)) ;
     (if missing : bool
      then raise (HTTPException 400 (Text "Missing required field: product_id"))
      else ret tt) ;;
     product_id ← lift (py_get data "product_id") ;
     present ← db_contains product_id ;
     (if negb present
      then raise (HTTPException 404 (ProductNotFoundText product_id))
      else ret tt) ;;
     let market_data := get_market_data (draws env) in
     rec ← db_getitem product_id ;
     let current_price := price rec in
     let new_price := adjust_price current_price market_data in
     (* Update pricing *)
     db_set_price product_id new_price ;;
     db_set_last_updated product_id (now_update env) ;;
     ret {| r_product_id := product_id;
            r_old_price := current_price;
            r_new_price := new_price;
            r_market_data := market_data;
            r_timestamp := Py.isoformat (now_response env) |})
    (fun e =>
       match e with
       | HTTPException _ _ => raise e   (* Re-raise HTTP exceptions *)
       | _ => raise (HTTPException 500 (Text "Internal server error"))
       end).

(** [GET /pricing/{product_id}]; the path parameter is a string. *)
Definition get_pricing (product_id : string) : M PriceRecord :=
  present ← db_contains (JStr product_id) ;
  (if negb present
   then raise (HTTPException 404 (ProductNotFoundText (JStr product_id)))
   else ret tt) ;;
  db_getitem (JStr product_id).

(** [GET /pricing]. *)
Definition get_all_pricing : M (gmap string PriceRecord) :=
  fun db => (Ok db, db).

(** [GET /health]. *)
Definition health_check (now : Py.datetime) : M (string * string) :=
  ret ("healthy"%string, Py.isoformat now).

(** The calls the service exposes, and the dictionary after handling one. *)
Inductive Call :=
| PostMarketUpdate (request : Request) (env : Env)
| GetPricing (product_id : string)
| GetAllPricing
| GetHealth (now : Py.datetime).

Definition handle (c : Call) (db : gmap string PriceRecord) : gmap string PriceRecord :=
  match c with
  | PostMarketUpdate request env => snd (market_update_webhook request env db)
  | GetPricing product_id => snd (get_pricing product_id db)
  | GetAllPricing => snd (get_all_pricing db)
  | GetHealth now => snd (health_check now db)
  end.

(** The dictionary after a sequence of calls, oldest first. *)
Definition run (calls : list Call) (db : gmap string PriceRecord) : gmap string PriceRecord :=
  fold_left (fun d c => handle c d) calls db.


(* ===================================================================== *)
(** * The webhook's validation chain *)
(* ===================================================================== *)

Section Webhook.

Implicit Types (db : gmap string PriceRecord) (request : Request) (env : Env).

(** The response of a successful update of the record [old]. *)
Definition success_response env (product_id : json) (old : PriceRecord) : UpdateResponse :=
  {| r_product_id := product_id;
     r_old_price := price old;
     r_new_price := adjust_price (price old) (get_market_data (draws env));
     r_market_data := get_market_data (draws env);
     r_timestamp := Py.isoformat (now_response env) |}.

(** The record written by a successful update of the record [old]. *)
Definition updated_record env (old : PriceRecord) : PriceRecord :=
  {| price := adjust_price (price old) (get_market_data (draws env));
     last_updated := now_update env |}.

(** The outcome of the webhook, check by check. *)
Definition webhook_outcome request env db : Result UpdateResponse * gmap string PriceRecord :=
  if negb (Py.str_contains "application/json"
             (headers_get (headers request) "content-type" ""))
  then (Raise InvalidContentType, db)
  else
    match request_json request with
    | Raise _ => (Raise MalformedJSON, db)
    | Ok data =>
        if negb (truthy data) then (Raise MissingField, db)
        else
          match py_in "product_id" data with
          | Raise _ => (Raise InternalError, db)
          | Ok false => (Raise MissingField, db)
          | Ok true =>
              match py_get data "product_id" with
              | Raise _ => (Raise InternalError, db)
              | Ok (JStr key) =>
                  match db !! key with
                  | Some old =>
                      (Ok (success_response env (JStr key) old),
                       <[key := updated_record env old]> db)
                  | None => (Raise (ProductNotFound (JStr key)), db)
                  end
              | Ok (JList items) => (Raise InternalError, db)
              | Ok (JObj fields) => (Raise InternalError, db)
              | Ok product_id => (Raise (ProductNotFound product_id), db)
              end
          end
    end.

End Webhook.

(** The hypotheses of a request that passes the four validation checks, and
    what the webhook then does. *)
Section Success.

Variables (request : Request) (env : Env) (db : gmap string PriceRecord).

Definition passes_checks (data product_id : json) : Prop :=
  Py.str_contains "application/json"
    (headers_get (headers request) "content-type" "") = true /\
  request_json request = Ok data /\
  truthy data = true /\ py_in "product_id" data = Ok true /\
  py_get data "product_id" = Ok product_id /\
  fst (db_contains product_id db) = Ok true.

Definition successful_update (product_id : json) : Prop :=
  exists key old resp db',
    product_id = JStr key /\ db !! key = Some old /\
    market_update_webhook request env db = (Ok resp, db') /\
    db' = <[key := {| price := adjust_price (price old) (get_market_data (draws env));
                      last_updated := now_update env |}]> db /\
    r_product_id resp = product_id /\
    r_old_price resp = price old /\
    db' !! key = Some {| price := r_new_price resp; last_updated := now_update env |} /\
    r_market_data resp = get_market_data (draws env) /\
    r_timestamp resp = Py.isoformat (now_response env) /\
    Py.is_iso8601 (r_timestamp resp) = true.

End Success.

(* ===================================================================== *)
(** * Sample requests *)
(* ===================================================================== *)

Module Sample.

Definition startup : Py.datetime :=
  {| Py.year := 2024; Py.month := 3; Py.day := 9;
     Py.hour := 7; Py.minute := 5; Py.second := 0; Py.microsecond := 1234 |}.

Definition later : Py.datetime :=
  {| Py.year := 2024; Py.month := 3; Py.day := 9;
     Py.hour := 7; Py.minute := 6; Py.second := 30; Py.microsecond := 0 |}.

Definition db0 : gmap string PriceRecord := pricing_db_init startup startup.

Definition env : Env :=
  {| draws := {| draw_demand := 0.5; draw_competitor := 0.25; draw_trend := 1 |};
     now_update := later; now_response := later |}.

(** A POST with [Content-Type: application/json] whose body parsed as
    [body]. *)
Definition json_post (body : json) : Request :=
  {| headers := [("content-type"%string, "application/json"%string)];
     request_json := Ok body |}.

(** The body [{"product_id": "product1"}]. *)
Definition product1_body : json := JObj [("product_id"%string, JStr "product1")].

(** The snapshots of the trend comparison: demand 1.0 and competitor
    price 1000, rising or falling. *)
Definition rising_1000 : MarketData :=
  {| demand := 1.0; competitor_price := 1000; trend := "rising" |}.
Definition falling_1000 : MarketData :=
  {| demand := 1.0; competitor_price := 1000; trend := "falling" |}.

(** A snapshot in range whose window starts at 90.0036. *)
Definition snapshot_100_004 : Reference.Snapshot :=
  {| Reference.s_demand := 0.5;
     Reference.s_competitor_price := 100.004;
     Reference.s_trend := Reference.Falling |}.


(** A snapshot with a negative competitor price: its window is degenerate. *)
Definition snapshot_degenerate : Reference.Snapshot :=
  {| Reference.s_demand := 1.25;
     Reference.s_competitor_price := -100;
     Reference.s_trend := Reference.Rising |}.

End Sample.

(* ===================================================================== *)
(** * Rounding of binary64 products, in closed form *)
(* ===================================================================== *)

(** The multiplication of two finite floats rounds the exact product
    [M * 2^E] of the mantissas.  The definitions below give that rounding
    as arithmetic on [Z]; the lemmas further down show that it is what the
    IEEE 754 specification [SFmul] of the primitive [*] computes. *)
Module Binary64.

(** Position of a remainder [rem] of a division by [d] against [d / 2]. *)
Definition loc_of_rem (rem d : Z) : location :=
  if (rem =? 0)%Z then loc_Exact else loc_Inexact (2 * rem ?= d)%Z.

(** [M / 2^n] rounded to the nearest integer, ties to even. *)
Definition rne (M n : Z) : Z :=
  round_nearest_even (M / 2 ^ n) (loc_of_rem (M mod 2 ^ n) (2 ^ n)).

(** Exponent of the format for a number with mantissa [M] at exponent [E]. *)
Definition target (M E : Z) : Z := fexp prec emax (Zdigits2 M + E).

(** A rounded mantissa [q] at exponent [t] as a float: one more shift when
    rounding carried into a new binary digit, infinity on overflow. *)
Definition norm (s : bool) (q t : Z) : spec_float :=
  let k := Z.max 0 (fexp prec emax (Zdigits2 q + t) - t) in
  match (q / 2 ^ k)%Z with
  | Z0 => S754_zero s
  | Zpos m =>
      if (t + k <=? emax - prec)%Z then S754_finite s m (t + k)
      else S754_infinity s
  | Zneg _ => S754_nan
  end.

(** The float nearest to [M * 2^E]. *)
Definition round_mul (s : bool) (M E : Z) : spec_float :=
  let n := Z.max 0 (target M E - E) in
  norm s (rne M n) (E + n).

(** [M1 * 2^E1 <= M2 * 2^E2], on integers. *)
Definition val_le (M1 E1 M2 E2 : Z) : Prop :=
  (M1 * 2 ^ (E1 - Z.min E1 E2) <= M2 * 2 ^ (E2 - Z.min E1 E2))%Z.

(** Floats of sign [s] that are numbers. *)
Definition signed (s : bool) (x : spec_float) : Prop :=
  match x with
  | S754_zero s' | S754_infinity s' | S754_finite s' _ _ => s' = s
  | S754_nan => False
  end.

(** Strictly positive finite floats. *)
Definition pos_finite (x : spec_float) : Prop :=
  match x with
  | S754_finite false _ _ => True
  | _ => False
  end.

(** The representation of [M * 2^E] at the exponent of the format, when
    that exponent is the lower one: sums are rounded from there. *)
Definition align (M E : Z) : Z * Z :=
  if (target M E <? E)%Z then ((M * 2 ^ (E - target M E))%Z, target M E)
  else (M, E).

(** Numbers other than zero: finite non-zero or infinite. *)
Definition nonzero_number (x : spec_float) : Prop :=
  match x with
  | S754_finite _ _ _ | S754_infinity _ => True
  | _ => False
  end.

End Binary64.

(* ===================================================================== *)
(** * Conditions on requests, draws and stored prices *)
(* ===================================================================== *)

(** The first check of the webhook: the [Content-Type] header contains
    [application/json]. *)
Definition json_content_type (request : Request) : bool :=
  Py.str_contains "application/json"
    (headers_get (headers request) "content-type" "").

(** Values that can be hashed, so that [in pricing_db] can test them. *)
Definition hashable (v : json) : bool :=
  match v with
  | JList _ | JObj _ => false
  | _ => true
  end.

(** The statuses the webhook answers with when it fails. *)
Definition error_status (e : Exn) : option Z :=
  match e with
  | HTTPException status_code _ => Some status_code
  | _ => None
  end.

(** Draws the [random] module can produce: [random()] lies in [[0, 1)] and
    the index picked by [choice] is below the length of the list. *)
Definition valid_draws (r : Draws) : Prop :=
  (0 <=? draw_demand r)%float = true /\ (draw_demand r <? 1)%float = true /\
  (0 <=? draw_competitor r)%float = true /\ (draw_competitor r <? 1)%float = true /\
  draw_trend r < 3.

Definition valid_call (c : Call) : Prop :=
  match c with
  | PostMarketUpdate _ env => valid_draws (draws env)
  | _ => True
  end.

(** A stored price between two bounds. *)
Definition price_between (lo hi : float) (r : PriceRecord) : Prop :=
  (lo <=? price r)%float = true /\ (price r <=? hi)%float = true.

(** The float that [round2] reads back from [n] hundredths. *)
Definition cents_float (n : Z) : float :=
  SF2Prim (SFdiv prec emax (S754_finite false (Z.to_pos n) 0)
             (S754_finite false 100 0)).

(** That float lies between 72 and 132. *)
Definition cents_between_72_132 (n : Z) : bool :=
  (72 <=? cents_float n)%float && (cents_float n <=? 132)%float.

(** That float is left alone by another rounding to two decimals. *)
Definition cents_rounds_to_itself (n : Z) : bool :=
  (Py.round2 (cents_float n) <=? cents_float n)%float
  && (cents_float n <=? Py.round2 (cents_float n))%float.

(** The counts of hundredths from 72.00 to 132.00. *)
Definition cents_7200_13200 : list Z :=
  map (fun i => (7200 + Z.of_nat i)%Z) (seq 0 (Z.to_nat 6001)).

(** A property of every price in the dictionary. *)
Definition all_prices (P : float -> Prop) (db : gmap string PriceRecord) : Prop :=
  forall key r, db !! key = Some r -> P (price r).

(* ===================================================================== *)
(** * The model on concrete inputs *)
(* ===================================================================== *)

(** [round(2.675, 2)] is [2.67]: the binary64 number nearest to 2.675 lies
    below the tie. *)
Example round2_below_tie : Py.round2 2.675 = 2.67%float.
Proof. reflexivity. Qed.

(** An exact tie goes to the even digit: [round(0.125, 2)] is [0.12] and
    [round(0.375, 2)] is [0.38]. *)
Example round2_exact_tie :
  Py.round2 0.125 = 0.12%float /\ Py.round2 0.375 = 0.38%float.
Proof. split; reflexivity. Qed.

(** A result of zero keeps the sign, infinities are returned unchanged. *)
Example round2_zero_and_infinity :
  Py.round2 (-0.001) = neg_zero /\ Py.round2 infinity = infinity.
Proof. split; reflexivity. Qed.

(** [max] and [min] keep their first argument when the other one is NaN. *)
Example max_min_nan : Py.max 1 nan = 1%float /\ Py.min 1 nan = 1%float.
Proof. split; reflexivity. Qed.

(** 100.0 at demand 1.25 under a falling trend is 112.5, clamped to the
    upper bound of the window of 90 and rounded to 99.0. *)
Example adjust_price_clamped_above :
  adjust_price 100.0
    {| demand := 1.25; competitor_price := 90; trend := "falling" |} = 99.0%float.
Proof. reflexivity. Qed.

(** A negative competitor price gives a degenerate window, and the result
    is its lower bound [-100 * 0.9]. *)
Example adjust_price_degenerate :
  adjust_price 100.0
    {| demand := 1.25; competitor_price := -100; trend := "rising" |} = (-90.0)%float.
Proof. reflexivity. Qed.

(** The first update of [product1] with the sample draws. *)
Example webhook_product1 :
  fst (market_update_webhook (Sample.json_post Sample.product1_body) Sample.env
         Sample.db0)
  = Ok {| r_product_id := JStr "product1";
          r_old_price := 100.0;
          r_new_price := 99.0;
          r_market_data :=
            {| demand := 1.25; competitor_price := 90; trend := "falling" |};
          r_timestamp := "2024-03-09T07:06:30" |}.
Proof. reflexivity. Qed.

(** An unknown product and a missing content type. *)
Example webhook_errors :
  fst (market_update_webhook
         (Sample.json_post (JObj [("product_id"%string, JStr "unknown")]))
         Sample.env Sample.db0)
  = Raise (ProductNotFound (JStr "unknown")) /\
  fst (market_update_webhook
         {| headers := []; request_json := Ok Sample.product1_body |}
         Sample.env Sample.db0)
  = Raise InvalidContentType /\
  fst (market_update_webhook (Sample.json_post (JObj [])) Sample.env Sample.db0)
  = Raise MissingField.
Proof. repeat split; reflexivity. Qed.

(** The two ways of rounding a half differ on 0.125, which is a binary
    fraction and so an exact tie between 0.12 and 0.13. *)
Example round_2dp_tie :
  Reference.round_2dp Reference.HalfToEven 0.125 = 0.12%float /\
  Reference.round_2dp Reference.HalfAwayFromZero 0.125 = 0.13%float /\
  Reference.round_2dp Reference.HalfAwayFromZero (-0.125) = (-0.13)%float.
Proof. repeat split; vm_compute; reflexivity. Qed.

(* ===================================================================== *)
(** * Facts about binary64 rounding *)
(* ===================================================================== *)

Section Shift.

Import Binary64.
Local Open Scope Z_scope.

(** One step of the right shift: the mantissa is halved and the two
    rounding bits keep track of the remainder. *)
Lemma shr_1_spec M k mrs :
  0 <= M -> 0 <= k ->
  shr_m mrs = M / 2 ^ k ->
  loc_of_shr_record mrs = loc_of_rem (M mod 2 ^ k) (2 ^ k) ->
  shr_m (shr_1 mrs) = M / 2 ^ (k + 1) /\
  loc_of_shr_record (shr_1 mrs) = loc_of_rem (M mod 2 ^ (k + 1)) (2 ^ (k + 1)).
Proof.
  intros HM Hk Hm Hloc.
  assert (Hpow : 0 < 2 ^ k) by (apply Z.pow_pos_nonneg; lia).
  assert (Hrem : 0 <= M mod 2 ^ k < 2 ^ k) by (apply Z.mod_pos_bound; lia).
  assert (Hm0 : 0 <= M / 2 ^ k) by (apply Z.div_pos; lia).
  rewrite Z.pow_add_r, Z.pow_1_r by lia.
  rewrite <- Z.div_div, Z.rem_mul_r by lia.
  set (m := M / 2 ^ k) in *. set (rem := M mod 2 ^ k) in *.
  assert (Hbit : m mod 2 = 0 \/ m mod 2 = 1)
    by (pose proof (Z.mod_pos_bound m 2); lia).
  destruct mrs as [m' r s]. simpl in Hm. subst m'.
  assert (Hrs : orb r s = negb (rem =? 0)).
  { unfold loc_of_rem in Hloc. destruct (rem =? 0); destruct r, s; simpl in *;
      congruence. }
  unfold shr_1. rewrite Hrs.
  destruct m as [|p|p]; [| |lia].
  - simpl. unfold loc_of_rem. rewrite Z.mul_0_r, Z.add_0_r.
    split; [reflexivity|].
    destruct (Z.eqb_spec rem 0); simpl; [reflexivity|].
    f_equal. symmetry. apply Z.compare_lt_iff. lia.
  - destruct p as [p|p|].
    + replace (Z.pos p~1 / 2) with (Z.pos p)
        by (rewrite Pos2Z.inj_xI; apply Z.div_unique with 1; lia).
      replace (Z.pos p~1 mod 2) with 1
        by (rewrite Pos2Z.inj_xI; apply Z.mod_unique with (Z.pos p); lia).
      split; [reflexivity|]. unfold loc_of_rem.
      destruct (Z.eqb_spec (rem + 2 ^ k * 1) 0); [lia|].
      destruct (Z.eqb_spec rem 0); simpl; f_equal; symmetry.
      * apply Z.compare_eq_iff. lia.
      * apply Z.compare_gt_iff. lia.
    + replace (Z.pos p~0 / 2) with (Z.pos p)
        by (rewrite Pos2Z.inj_xO; apply Z.div_unique with 0; lia).
      replace (Z.pos p~0 mod 2) with 0
        by (rewrite Pos2Z.inj_xO; apply Z.mod_unique with (Z.pos p); lia).
      split; [reflexivity|]. unfold loc_of_rem. rewrite Z.mul_0_r, Z.add_0_r.
      destruct (Z.eqb_spec rem 0); simpl; [reflexivity|].
      f_equal. symmetry. apply Z.compare_lt_iff. lia.
    + change (1 / 2) with 0. change (1 mod 2) with 1.
      split; [reflexivity|]. unfold loc_of_rem.
      destruct (Z.eqb_spec (rem + 2 ^ k * 1) 0); [lia|].
      destruct (Z.eqb_spec rem 0); simpl; f_equal; symmetry.
      * apply Z.compare_eq_iff. lia.
      * apply Z.compare_gt_iff. lia.
Qed.

Lemma iter_shr_1_spec M p : forall k mrs,
  0 <= M -> 0 <= k ->
  shr_m mrs = M / 2 ^ k ->
  loc_of_shr_record mrs = loc_of_rem (M mod 2 ^ k) (2 ^ k) ->
  shr_m (@SpecFloat.iter_pos _ shr_1 p mrs) = M / 2 ^ (k + Z.pos p) /\
  loc_of_shr_record (@SpecFloat.iter_pos _ shr_1 p mrs)
    = loc_of_rem (M mod 2 ^ (k + Z.pos p)) (2 ^ (k + Z.pos p)).
Proof.
  induction p as [p IH|p IH|]; intros k mrs HM Hk Hm Hloc; simpl.
  - destruct (shr_1_spec M k mrs HM Hk Hm Hloc) as [Hm1 Hloc1].
    destruct (IH (k + 1) _ HM ltac:(lia) Hm1 Hloc1) as [Hm2 Hloc2].
    destruct (IH (k + 1 + Z.pos p) _ HM ltac:(lia) Hm2 Hloc2) as [Hm3 Hloc3].
    replace (k + Z.pos p~1) with (k + 1 + Z.pos p + Z.pos p) by lia. auto.
  - destruct (IH k _ HM Hk Hm Hloc) as [Hm2 Hloc2].
    destruct (IH (k + Z.pos p) _ HM ltac:(lia) Hm2 Hloc2) as [Hm3 Hloc3].
    replace (k + Z.pos p~0) with (k + Z.pos p + Z.pos p) by lia. auto.
  - apply shr_1_spec; assumption.
Qed.

(** The shift of an exact mantissa by [n] places. *)
Lemma shr_exact M e n :
  0 <= M ->
  exists mrs,
    shr (shr_record_of_loc M loc_Exact) e n = (mrs, e + Z.max 0 n) /\
    shr_m mrs = M / 2 ^ Z.max 0 n /\
    loc_of_shr_record mrs = loc_of_rem (M mod 2 ^ Z.max 0 n) (2 ^ Z.max 0 n).
Proof.
  intros HM.
  assert (H0 : shr_m (shr_record_of_loc M loc_Exact) = M / 2 ^ 0 /\
               loc_of_shr_record (shr_record_of_loc M loc_Exact)
                 = loc_of_rem (M mod 2 ^ 0) (2 ^ 0)).
  { simpl. rewrite Z.div_1_r, Z.mod_1_r. split; reflexivity. }
  destruct H0 as [Hm Hloc].
  destruct n as [|p|p]; simpl shr.
  - eexists. rewrite Z.add_0_r. split; [reflexivity|]. split; assumption.
  - eexists. split; [reflexivity|].
    replace (Z.max 0 (Z.pos p)) with (0 + Z.pos p) by lia.
    apply iter_shr_1_spec; [assumption | lia | assumption | assumption].
  - eexists. rewrite Z.add_0_r. split; [reflexivity|]. split; assumption.
Qed.

Lemma rne_nonneg M n : 0 <= M -> 0 <= n -> 0 <= rne M n.
Proof.
  intros HM Hn. unfold rne.
  assert (0 <= M / 2 ^ n) by (apply Z.div_pos; [lia | apply Z.pow_pos_nonneg; lia]).
  unfold round_nearest_even.
  destruct (loc_of_rem _ _) as [|[| |]]; try destruct (Z.even _); lia.
Qed.

(** The rounding step of a finite product, [binary_round_aux] on an exact
    mantissa, is [round_mul]. *)
Lemma binary_round_aux_exact s M E :
  0 <= M -> binary_round_aux prec emax s M E loc_Exact = round_mul s M E.
Proof.
  intros HM. unfold binary_round_aux, shr_fexp, round_mul, norm, target.
  destruct (shr_exact M E (fexp prec emax (Zdigits2 M + E) - E) HM)
    as (mrs & -> & Hm & Hloc).
  rewrite Hm, Hloc. fold (rne M (Z.max 0 (fexp prec emax (Zdigits2 M + E) - E))).
  set (n := Z.max 0 _). set (q := rne M n).
  assert (Hq : 0 <= q) by (apply rne_nonneg; lia).
  destruct (shr_exact q (E + n) (fexp prec emax (Zdigits2 q + (E + n)) - (E + n)) Hq)
    as (mrs2 & -> & Hm2 & _).
  rewrite Hm2. reflexivity.
Qed.

End Shift.

(** ** Signs: rounding never produces NaN and keeps the sign *)

Section Signs.

Import Binary64.
Local Open Scope Z_scope.

Lemma shr_1_nonneg mrs : 0 <= shr_m mrs -> 0 <= shr_m (shr_1 mrs).
Proof.
  destruct mrs as [m r s]. simpl.
  destruct m as [|[p|p|]|p]; simpl; lia.
Qed.

Lemma iter_shr_1_nonneg p : forall mrs,
  0 <= shr_m mrs -> 0 <= shr_m (@SpecFloat.iter_pos _ shr_1 p mrs).
Proof.
  induction p as [p IH|p IH|]; intros mrs H; simpl.
  - apply IH, IH, shr_1_nonneg, H.
  - apply IH, IH, H.
  - apply shr_1_nonneg, H.
Qed.

Lemma shr_nonneg mrs e n : 0 <= shr_m mrs -> 0 <= shr_m (fst (shr mrs e n)).
Proof.
  intros H. destruct n; simpl; try assumption.
  apply iter_shr_1_nonneg, H.
Qed.

Lemma shr_record_of_loc_m M l : shr_m (shr_record_of_loc M l) = M.
Proof. destruct l as [|[| |]]; reflexivity. Qed.

Lemma round_nearest_even_nonneg m l : 0 <= m -> 0 <= round_nearest_even m l.
Proof.
  intros H. destruct l as [|[| |]]; simpl; try destruct (Z.even m); lia.
Qed.

Lemma binary_round_aux_signed s M E l :
  0 <= M -> signed s (binary_round_aux prec emax s M E l).
Proof.
  intros HM. unfold binary_round_aux, shr_fexp.
  pose proof (shr_nonneg (shr_record_of_loc M l) E
                (fexp prec emax (Zdigits2 M + E) - E)) as H1.
  rewrite shr_record_of_loc_m in H1. specialize (H1 HM).
  destruct (shr (shr_record_of_loc M l) E _) as [mrs1 e1]. simpl in H1.
  set (q := round_nearest_even (shr_m mrs1) (loc_of_shr_record mrs1)).
  assert (Hq : 0 <= q) by (apply round_nearest_even_nonneg, H1).
  pose proof (shr_nonneg (shr_record_of_loc q loc_Exact) e1
                (fexp prec emax (Zdigits2 q + e1) - e1)) as H2.
  rewrite shr_record_of_loc_m in H2. specialize (H2 Hq).
  destruct (shr (shr_record_of_loc q loc_Exact) e1 _) as [mrs2 e2]. simpl in H2.
  destruct (shr_m mrs2) as [|m|m]; simpl; [reflexivity | | lia].
  destruct (e2 <=? emax - prec); reflexivity.
Qed.

Lemma binary_round_signed s m e : signed s (binary_round prec emax s m e).
Proof.
  unfold binary_round. destruct (shl_align _ _ _) as [mz ez].
  apply binary_round_aux_signed. lia.
Qed.

(** A number times a finite float is a number, of the product sign. *)
Lemma SFmul_signed x sx sy my ey :
  signed sx x ->
  signed (xorb sx sy) (SFmul prec emax x (S754_finite sy my ey)).
Proof.
  destruct x as [s|s| |s mx ex]; simpl; try (intros ->; reflexivity);
    try contradiction.
  intros ->. apply binary_round_aux_signed. lia.
Qed.

Lemma SFdiv_signed sx mx ex sy my ey :
  signed (xorb sx sy)
    (SFdiv prec emax (S754_finite sx mx ex) (S754_finite sy my ey)).
Proof.
  simpl. unfold SFdiv_core_binary.
  set (m' := match _ with Z.pos _ => _ | _ => _ end).
  assert (Hm' : 0 <= m').
  { subst m'. destruct (_ - _ - _); try lia. apply Z.shiftl_nonneg. lia. }
  pose proof (Z_div_mod m' (Z.pos my) ltac:(lia)) as Hdiv.
  destruct (Z.div_eucl m' (Z.pos my)) as [q r].
  apply binary_round_aux_signed. nia.
Qed.

End Signs.

(** ** The order of floats *)

Section Order.

Import Binary64.
Local Open Scope Z_scope.

(** Comparison of two positive finite floats: by exponent, then mantissa. *)
Lemma SFleb_pos_finite m1 e1 m2 e2 :
  SFleb (S754_finite false m1 e1) (S754_finite false m2 e2) = true <->
  e1 < e2 \/ (e1 = e2 /\ Z.pos m1 <= Z.pos m2).
Proof.
  unfold SFleb. simpl. change (Pos.compare_cont Eq m1 m2) with (m1 ?= m2)%positive.
  destruct (Z.compare_spec e1 e2); [destruct (Pos.compare_spec m1 m2)| |];
    split; intros; try discriminate; try reflexivity; lia.
Qed.

Lemma SFltb_pos_finite m1 e1 m2 e2 :
  SFltb (S754_finite false m1 e1) (S754_finite false m2 e2) = true <->
  e1 < e2 \/ (e1 = e2 /\ Z.pos m1 < Z.pos m2).
Proof.
  unfold SFltb. simpl. change (Pos.compare_cont Eq m1 m2) with (m1 ?= m2)%positive.
  destruct (Z.compare_spec e1 e2); [destruct (Pos.compare_spec m1 m2)| |];
    split; intros; try discriminate; try reflexivity; lia.
Qed.

Lemma SFcompare_swap x y :
  SFcompare y x = option_map CompOpp (SFcompare x y).
Proof.
  destruct x as [s1|s1| |s1 m1 e1], y as [s2|s2| |s2 m2 e2]; simpl;
    try destruct s1; try destruct s2; try reflexivity;
    rewrite (Z.compare_antisym e1 e2);
    change (Pos.compare_cont Eq m2 m1) with (m2 ?= m1)%positive;
    change (Pos.compare_cont Eq m1 m2) with (m1 ?= m2)%positive;
    rewrite (Pos.compare_antisym m1 m2);
    destruct (e1 ?= e2); simpl; try reflexivity;
    destruct (m1 ?= m2)%positive; reflexivity.
Qed.

(** On numbers the order is total: [y < x] exactly when not [x <= y]. *)
Lemma SFltb_negb_leb x y :
  x <> S754_nan -> y <> S754_nan -> SFltb y x = negb (SFleb x y).
Proof.
  intros Hx Hy. unfold SFltb, SFleb. rewrite (SFcompare_swap x y).
  destruct (SFcompare x y) as [[| |]|] eqn:Hc; try reflexivity.
  destruct x, y; simpl in Hc; congruence.
Qed.

Lemma SFleb_not_nan x y : SFleb x y = true -> x <> S754_nan /\ y <> S754_nan.
Proof. unfold SFleb. destruct x, y; simpl; intros H; split; congruence. Qed.

Lemma SFltb_not_nan x y : SFltb x y = true -> x <> S754_nan /\ y <> S754_nan.
Proof. unfold SFltb. destruct x, y; simpl; intros H; split; congruence. Qed.

Lemma SFltb_leb x y : SFltb x y = true -> SFleb x y = true.
Proof. unfold SFltb, SFleb. destruct (SFcompare x y) as [[| |]|]; congruence. Qed.

Lemma SFleb_refl x : x <> S754_nan -> SFleb x x = true.
Proof.
  destruct x as [s|s| |s m e]; unfold SFleb; simpl; try congruence;
    try (destruct s; reflexivity).
  intros _. rewrite Z.compare_refl. change (Pos.compare_cont Eq m m) with (m ?= m)%positive.
  rewrite Pos.compare_refl. destruct s; reflexivity.
Qed.

Lemma SFleb_refl_compare x : x <> S754_nan -> SFcompare x x = Some Eq.
Proof.
  destruct x as [s|s| |s m e]; simpl; try congruence;
    try (destruct s; reflexivity).
  intros _. rewrite Z.compare_refl. change (Pos.compare_cont Eq m m) with (m ?= m)%positive.
  rewrite Pos.compare_refl. destruct s; reflexivity.
Qed.

Lemma SFleb_trans x y z :
  SFleb x y = true -> SFleb y z = true -> SFleb x z = true.
Proof.
  unfold SFleb.
  destruct x as [s1|s1| |s1 m1 e1], y as [s2|s2| |s2 m2 e2], z as [s3|s3| |s3 m3 e3];
    simpl; try destruct s1; try destruct s2; try destruct s3; simpl;
    try congruence;
    change (Pos.compare_cont Eq m1 m2) with (m1 ?= m2)%positive;
    change (Pos.compare_cont Eq m2 m3) with (m2 ?= m3)%positive;
    change (Pos.compare_cont Eq m1 m3) with (m1 ?= m3)%positive;
    destruct (Z.compare_spec e1 e2); try destruct (Pos.compare_spec m1 m2);
    simpl; try congruence;
    destruct (Z.compare_spec e2 e3); try destruct (Pos.compare_spec m2 m3);
    simpl; try congruence;
    destruct (Z.compare_spec e1 e3); try destruct (Pos.compare_spec m1 m3);
    simpl; try congruence; lia.
Qed.

(** Two floats that compare equal are the same float, unless both are
    zeros. *)
Lemma SFleb_antisym x y :
  SFleb x y = true -> SFleb y x = true ->
  x = y \/ (exists s1 s2, x = S754_zero s1 /\ y = S754_zero s2).
Proof.
  unfold SFleb. rewrite (SFcompare_swap x y).
  destruct x as [s1|s1| |s1 m1 e1], y as [s2|s2| |s2 m2 e2];
    simpl; try destruct s1; try destruct s2; simpl; try congruence; eauto;
    change (Pos.compare_cont Eq m1 m2) with (m1 ?= m2)%positive;
    destruct (Z.compare_spec e1 e2); try destruct (Pos.compare_spec m1 m2);
    intros H1 H2; cbn in H1, H2; try discriminate; left; subst; reflexivity.
Qed.

Lemma SFltb_leb_trans x y z :
  SFltb x y = true -> SFleb y z = true -> SFltb x z = true.
Proof.
  intros Hxy Hyz.
  destruct (SFltb_not_nan _ _ Hxy) as [Hx Hy].
  destruct (SFleb_not_nan _ _ Hyz) as [_ Hz].
  rewrite (SFltb_negb_leb z x) by assumption.
  destruct (SFleb z x) eqn:Hzx; [|reflexivity].
  pose proof (SFleb_trans _ _ _ Hyz Hzx) as Hyx.
  rewrite (SFltb_negb_leb y x) in Hxy by assumption.
  rewrite Hyx in Hxy. discriminate.
Qed.

Lemma SFleb_ltb_trans x y z :
  SFleb x y = true -> SFltb y z = true -> SFltb x z = true.
Proof.
  intros Hxy Hyz.
  destruct (SFleb_not_nan _ _ Hxy) as [Hx Hy].
  destruct (SFltb_not_nan _ _ Hyz) as [_ Hz].
  rewrite (SFltb_negb_leb z x) by assumption.
  destruct (SFleb z x) eqn:Hzx; [|reflexivity].
  pose proof (SFleb_trans _ _ _ Hzx Hxy) as Hzy.
  rewrite (SFltb_negb_leb z y) in Hyz by assumption.
  rewrite Hzy in Hyz. discriminate.
Qed.

End Order.

(** ** Number of binary digits *)

Section Digits.

Local Open Scope Z_scope.

Lemma fexp_eq e : fexp prec emax e = Z.max (e - 53) (-1074).
Proof. reflexivity. Qed.

Lemma digits2_pos_spec p :
  2 ^ (Z.pos (digits2_pos p) - 1) <= Z.pos p < 2 ^ Z.pos (digits2_pos p).
Proof.
  induction p as [p IH|p IH|]; simpl digits2_pos.
  - rewrite Pos2Z.inj_succ, Pos2Z.inj_xI.
    replace (Z.succ (Z.pos (digits2_pos p)) - 1)
      with (Z.succ (Z.pos (digits2_pos p) - 1)) by lia.
    rewrite !Z.pow_succ_r by lia.
    set (a := 2 ^ (Z.pos (digits2_pos p) - 1)) in *.
    set (b := 2 ^ Z.pos (digits2_pos p)) in *. clearbody a b. lia.
  - rewrite Pos2Z.inj_succ. change (Z.pos p~0) with (2 * Z.pos p).
    replace (Z.succ (Z.pos (digits2_pos p)) - 1)
      with (Z.succ (Z.pos (digits2_pos p) - 1)) by lia.
    rewrite !Z.pow_succ_r by lia.
    set (a := 2 ^ (Z.pos (digits2_pos p) - 1)) in *.
    set (b := 2 ^ Z.pos (digits2_pos p)) in *. clearbody a b. lia.
  - simpl. lia.
Qed.

Lemma Zdigits2_spec M :
  0 < M -> 1 <= Zdigits2 M /\ 2 ^ (Zdigits2 M - 1) <= M < 2 ^ Zdigits2 M.
Proof.
  destruct M as [|p|p]; try lia. intros _. simpl.
  split; [lia | apply digits2_pos_spec].
Qed.

Lemma Zdigits2_unique M d :
  2 ^ (d - 1) <= M < 2 ^ d -> 1 <= d -> Zdigits2 M = d.
Proof.
  intros HM Hd.
  assert (0 < M) by (pose proof (Z.pow_pos_nonneg 2 (d - 1)); lia).
  destruct (Zdigits2_spec M) as [H1 H2]; [assumption|].
  assert (Zdigits2 M - 1 < d)
    by (apply (Z.pow_lt_mono_r_iff 2); lia).
  assert (d - 1 < Zdigits2 M)
    by (apply (Z.pow_lt_mono_r_iff 2); lia).
  lia.
Qed.

Lemma Zdigits2_mono M1 M2 : 0 < M1 -> M1 <= M2 -> Zdigits2 M1 <= Zdigits2 M2.
Proof.
  intros H1 H12.
  destruct (Zdigits2_spec M1) as [Ha Hb]; [lia|].
  destruct (Zdigits2_spec M2) as [Hc Hd]; [lia|].
  assert (Zdigits2 M1 - 1 < Zdigits2 M2)
    by (apply (Z.pow_lt_mono_r_iff 2); lia).
  lia.
Qed.

Lemma Zdigits2_shift M j : 0 < M -> 0 <= j -> Zdigits2 (M * 2 ^ j) = Zdigits2 M + j.
Proof.
  intros HM Hj. destruct (Zdigits2_spec M HM) as [Hd [Hlo Hhi]].
  apply Zdigits2_unique; [|lia].
  replace (Zdigits2 M + j - 1) with (Zdigits2 M - 1 + j) by lia.
  rewrite !Z.pow_add_r by lia.
  assert (0 < 2 ^ j) by (apply Z.pow_pos_nonneg; lia). nia.
Qed.

Lemma Zdigits2_mul M1 M2 :
  0 < M1 -> 0 < M2 -> Zdigits2 M1 + Zdigits2 M2 - 1 <= Zdigits2 (M1 * M2).
Proof.
  intros H1 H2.
  destruct (Zdigits2_spec M1 H1) as [Hd1 [Hlo1 _]].
  destruct (Zdigits2_spec M2 H2) as [Hd2 [Hlo2 _]].
  destruct (Zdigits2_spec (M1 * M2)) as [Hd [_ Hhi]]; [nia|].
  assert (Hp : 2 ^ (Zdigits2 M1 - 1 + (Zdigits2 M2 - 1)) <= M1 * M2).
  { rewrite Z.pow_add_r by lia.
    assert (0 < 2 ^ (Zdigits2 M1 - 1)) by (apply Z.pow_pos_nonneg; lia).
    assert (0 < 2 ^ (Zdigits2 M2 - 1)) by (apply Z.pow_pos_nonneg; lia). nia. }
  assert (Zdigits2 M1 - 1 + (Zdigits2 M2 - 1) < Zdigits2 (M1 * M2))
    by (apply (Z.pow_lt_mono_r_iff 2); lia).
  lia.
Qed.

End Digits.

(** ** Rounding to nearest is monotone *)

Section Nearest.

Import Binary64.
Local Open Scope Z_scope.

Lemma rne_bounds M n : M / 2 ^ n <= rne M n <= M / 2 ^ n + 1.
Proof.
  unfold rne, round_nearest_even.
  destruct (loc_of_rem _ _) as [|[| |]]; try destruct (Z.even _); lia.
Qed.

Lemma rne_mono M1 M2 n : 0 <= n -> 0 <= M1 -> M1 <= M2 -> rne M1 n <= rne M2 n.
Proof.
  intros Hn H1 H12.
  assert (Hd : 0 < 2 ^ n) by (apply Z.pow_pos_nonneg; lia).
  pose proof (Z.div_le_mono M1 M2 (2 ^ n) Hd H12) as Hq.
  destruct (Z.eq_dec (M1 / 2 ^ n) (M2 / 2 ^ n)) as [Heq|Hne].
  - pose proof (Z.div_mod M1 (2 ^ n) ltac:(lia)) as E1.
    pose proof (Z.div_mod M2 (2 ^ n) ltac:(lia)) as E2.
    pose proof (Z.mod_pos_bound M1 (2 ^ n) Hd) as B1.
    pose proof (Z.mod_pos_bound M2 (2 ^ n) Hd) as B2.
    unfold rne, loc_of_rem, round_nearest_even. rewrite <- Heq in *.
    set (q := M1 / 2 ^ n) in *. set (r1 := M1 mod 2 ^ n) in *.
    set (r2 := M2 mod 2 ^ n) in *. set (d := 2 ^ n) in *.
    assert (r1 <= r2) by nia.
    destruct (Z.eqb_spec r1 0), (Z.eqb_spec r2 0);
      try destruct (Z.compare_spec (2 * r1) d);
      try destruct (Z.compare_spec (2 * r2) d);
      destruct (Z.even q); lia.
  - pose proof (rne_bounds M1 n). pose proof (rne_bounds M2 n). lia.
Qed.

Lemma rne_shift M n j : 0 <= n -> 0 <= j -> rne (M * 2 ^ j) (n + j) = rne M n.
Proof.
  intros Hn Hj.
  assert (Hd : 0 < 2 ^ n) by (apply Z.pow_pos_nonneg; lia).
  assert (Hc : 0 < 2 ^ j) by (apply Z.pow_pos_nonneg; lia).
  unfold rne. rewrite Z.pow_add_r by lia.
  rewrite Z.div_mul_cancel_r by lia.
  rewrite Z.mul_mod_distr_r by lia.
  f_equal. unfold loc_of_rem.
  replace (2 * (M mod 2 ^ n * 2 ^ j)) with (2 * (M mod 2 ^ n) * 2 ^ j) by ring.
  rewrite <- (Zmult_compare_compat_r (2 * (M mod 2 ^ n)) (2 ^ n) (2 ^ j)) by lia.
  destruct (Z.eqb_spec (M mod 2 ^ n) 0) as [->|Hr].
  - reflexivity.
  - destruct (Z.eqb_spec (M mod 2 ^ n * 2 ^ j) 0); [nia | reflexivity].
Qed.

Lemma rne_upper M n b :
  0 <= n -> 0 <= b -> 0 <= M < 2 ^ (n + b) -> rne M n <= 2 ^ b.
Proof.
  intros Hn Hb HM. rewrite Z.pow_add_r in HM by lia.
  assert (Hd : 0 < 2 ^ n) by (apply Z.pow_pos_nonneg; lia).
  assert (M / 2 ^ n < 2 ^ b) by (apply Z.div_lt_upper_bound; lia).
  pose proof (rne_bounds M n). lia.
Qed.

Lemma rne_lower M n b :
  0 <= n -> 0 <= b -> 2 ^ (n + b) <= M -> 2 ^ b <= rne M n.
Proof.
  intros Hn Hb HM. rewrite Z.pow_add_r in HM by lia.
  assert (Hd : 0 < 2 ^ n) by (apply Z.pow_pos_nonneg; lia).
  assert (2 ^ b <= M / 2 ^ n) by (apply Z.div_le_lower_bound; lia).
  pose proof (rne_bounds M n). lia.
Qed.

(** The float of a rounded mantissa, case by case. *)
Lemma norm_eq s q t :
  0 <= q <= 2 ^ 53 -> -1074 <= t ->
  norm s q t =
    if q =? 0 then S754_zero s
    else if q <? 2 ^ 53
         then if t <=? 971 then S754_finite s (Z.to_pos q) t else S754_infinity s
         else if t + 1 <=? 971 then S754_finite s (Z.to_pos (2 ^ 52)) (t + 1)
              else S754_infinity s.
Proof.
  intros Hq Ht. unfold norm. rewrite fexp_eq.
  change (emax - prec) with 971.
  destruct (Z.eqb_spec q 0) as [->|Hq0].
  - simpl Zdigits2. replace (Z.max 0 _) with 0 by lia. reflexivity.
  - destruct (Zdigits2_spec q ltac:(lia)) as [Hd [Hlo Hhi]].
    destruct (Z.ltb_spec q (2 ^ 53)) as [Hlt|Hge].
    + assert (Zdigits2 q - 1 < 53) by (apply (Z.pow_lt_mono_r_iff 2); lia).
      replace (Z.max 0 _) with 0 by lia.
      rewrite Z.pow_0_r, Z.div_1_r, Z.add_0_r.
      destruct q as [|p|p]; try lia. reflexivity.
    + assert (q = 2 ^ 53) by lia. subst q.
      replace (Zdigits2 (2 ^ 53)) with 54 by reflexivity.
      replace (Z.max 0 _) with 1 by lia. reflexivity.
Qed.

Ltac norm_order :=
  rewrite !norm_eq by lia;
  repeat match goal with
         | |- context [Z.eqb ?a ?b] => destruct (Z.eqb_spec a b)
         | |- context [Z.ltb ?a ?b] => destruct (Z.ltb_spec a b)
         | |- context [Z.leb ?a ?b] => destruct (Z.leb_spec a b)
         end;
  try reflexivity; try lia;
  try (apply SFleb_pos_finite; rewrite ?Z2Pos.id by lia; lia).

Lemma norm_le_same q1 q2 t :
  0 <= q1 -> q1 <= q2 -> q2 <= 2 ^ 53 -> -1074 <= t ->
  SFleb (norm false q1 t) (norm false q2 t) = true.
Proof.
  intros H1 H12 H2 Ht.
  assert (Hp : 2 ^ 52 < 2 ^ 53) by reflexivity.
  assert (Hp0 : 0 < 2 ^ 52) by reflexivity.
  set (a := 2 ^ 52) in *. set (b := 2 ^ 53) in *.
  norm_order.
Qed.

Lemma norm_le_next q1 q2 t1 t2 :
  0 <= q1 <= 2 ^ 53 -> 2 ^ 52 <= q2 <= 2 ^ 53 -> -1074 <= t1 -> t1 < t2 ->
  SFleb (norm false q1 t1) (norm false q2 t2) = true.
Proof.
  intros H1 H2 Ht1 Ht.
  assert (Hp : 2 ^ 52 < 2 ^ 53) by reflexivity.
  assert (Hp0 : 0 < 2 ^ 52) by reflexivity.
  set (a := 2 ^ 52) in *. set (b := 2 ^ 53) in *.
  norm_order.
Qed.

End Nearest.

(** ** Rounding of products is monotone *)

Section RoundMul.

Import Binary64.
Local Open Scope Z_scope.

Lemma target_eq M E : target M E = Z.max (Zdigits2 M + E - 53) (-1074).
Proof. reflexivity. Qed.

(** When the mantissa has to be shifted right (or not at all), the rounded
    mantissa has at most 53 binary digits, or is [2^53]. *)
Lemma round_mul_regime s M E :
  0 < M -> E <= target M E ->
  round_mul s M E = norm s (rne M (target M E - E)) (target M E) /\
  0 <= rne M (target M E - E) <= 2 ^ 53 /\ -1074 <= target M E.
Proof.
  intros HM HE. unfold round_mul.
  replace (Z.max 0 (target M E - E)) with (target M E - E) by lia.
  replace (E + (target M E - E)) with (target M E) by lia.
  split; [reflexivity|].
  destruct (Zdigits2_spec M HM) as [Hd [Hlo Hhi]].
  rewrite target_eq in *.
  split; [|lia]. split.
  - apply rne_nonneg; lia.
  - apply rne_upper; try lia. split; [lia|].
    apply Z.lt_le_trans with (1 := Hhi).
    apply Z.pow_le_mono_r; lia.
Qed.

Lemma round_mul_mono_same M1 M2 E :
  0 < M1 -> M1 <= M2 -> E <= target M1 E -> E <= target M2 E ->
  SFleb (round_mul false M1 E) (round_mul false M2 E) = true.
Proof.
  intros H1 H12 R1 R2.
  destruct (round_mul_regime false M1 E H1 R1) as (-> & Hq1 & Ht1).
  destruct (round_mul_regime false M2 E ltac:(lia) R2) as (-> & Hq2 & Ht2).
  pose proof (Zdigits2_mono M1 M2 H1 H12) as Hd.
  assert (Ht : target M1 E <= target M2 E)
    by (pose proof (target_eq M1 E); pose proof (target_eq M2 E); lia).
  destruct (Z.eq_dec (target M1 E) (target M2 E)) as [Heq|Hne].
  - rewrite <- Heq in *.
    apply norm_le_same; try lia. apply rne_mono; lia.
  - apply norm_le_next; try lia.
    split; [|lia].
    destruct (Zdigits2_spec M2 ltac:(lia)) as [Hd2 [Hlo2 _]].
    assert (Ht2' : target M2 E = Zdigits2 M2 + E - 53)
      by (pose proof (target_eq M1 E); pose proof (target_eq M2 E); lia).
    apply rne_lower; try lia.
    replace (target M2 E - E + 52) with (Zdigits2 M2 - 1) by lia.
    exact Hlo2.
Qed.

Lemma round_mul_shift s M E j :
  0 < M -> 0 <= j -> E <= target M E ->
  round_mul s (M * 2 ^ j) (E - j) = round_mul s M E.
Proof.
  intros HM Hj HE.
  assert (Ht : target (M * 2 ^ j) (E - j) = target M E).
  { unfold target. rewrite Zdigits2_shift by lia. f_equal. lia. }
  unfold round_mul. rewrite Ht.
  replace (Z.max 0 (target M E - (E - j))) with (target M E - E + j) by lia.
  replace (Z.max 0 (target M E - E)) with (target M E - E) by lia.
  rewrite rne_shift by lia. f_equal. lia.
Qed.

(** The rounding of [M1 * 2^E1] is at most the rounding of a larger
    [M2 * 2^E2]. *)
Lemma round_mul_mono M1 E1 M2 E2 :
  0 < M1 -> 0 < M2 -> E1 <= target M1 E1 -> E2 <= target M2 E2 ->
  val_le M1 E1 M2 E2 ->
  SFleb (round_mul false M1 E1) (round_mul false M2 E2) = true.
Proof.
  intros H1 H2 R1 R2 Hle. unfold val_le in Hle.
  set (E := Z.min E1 E2) in *.
  assert (Hj1 : 0 <= E1 - E) by lia. assert (Hj2 : 0 <= E2 - E) by lia.
  rewrite <- (round_mul_shift false M1 E1 (E1 - E)) by assumption.
  rewrite <- (round_mul_shift false M2 E2 (E2 - E)) by assumption.
  replace (E1 - (E1 - E)) with E by lia. replace (E2 - (E2 - E)) with E by lia.
  assert (0 < 2 ^ (E1 - E)) by (apply Z.pow_pos_nonneg; lia).
  assert (0 < 2 ^ (E2 - E)) by (apply Z.pow_pos_nonneg; lia).
  apply round_mul_mono_same; try nia.
  - unfold target in *. rewrite Zdigits2_shift by lia.
    replace (Zdigits2 M1 + (E1 - E) + E) with (Zdigits2 M1 + E1) by lia. lia.
  - unfold target in *. rewrite Zdigits2_shift by lia.
    replace (Zdigits2 M2 + (E2 - E) + E) with (Zdigits2 M2 + E2) by lia. lia.
Qed.

(** ** Valid floats *)

(** A finite binary64 number has a mantissa of at most 53 digits, of
    exactly 53 digits above the least exponent. *)
Lemma bounded_spec m e :
  bounded prec emax m e = true ->
  e = Z.max (Zdigits2 (Z.pos m) + e - 53) (-1074) /\ e <= 971.
Proof.
  unfold bounded, canonical_mantissa. rewrite fexp_eq.
  intros H. apply andb_prop in H as [H1 H2].
  apply Z.eqb_eq in H1. apply Z.leb_le in H2.
  change (emax - prec) with 971 in H2. simpl Zdigits2. lia.
Qed.

(** The product of two valid mantissas is rounded by a right shift. *)
Lemma product_regime m1 e1 m2 e2 :
  bounded prec emax m1 e1 = true -> bounded prec emax m2 e2 = true ->
  e1 + e2 <= target (Z.pos m1 * Z.pos m2) (e1 + e2).
Proof.
  intros B1 B2.
  apply bounded_spec in B1 as [B1 _]. apply bounded_spec in B2 as [B2 _].
  pose proof (Zdigits2_mul (Z.pos m1) (Z.pos m2) ltac:(lia) ltac:(lia)) as Hd.
  destruct (Zdigits2_spec (Z.pos m1) ltac:(lia)) as [Hd1 _].
  destruct (Zdigits2_spec (Z.pos m2) ltac:(lia)) as [Hd2 _].
  rewrite target_eq. lia.
Qed.

(** On valid positive floats the order is the order of the values. *)
Lemma SFleb_val_le m1 e1 m2 e2 :
  bounded prec emax m1 e1 = true -> bounded prec emax m2 e2 = true ->
  SFleb (S754_finite false m1 e1) (S754_finite false m2 e2) = true ->
  val_le (Z.pos m1) e1 (Z.pos m2) e2.
Proof.
  intros B1 B2 Hle.
  apply bounded_spec in B1 as [B1 _]. apply bounded_spec in B2 as [B2 _].
  apply SFleb_pos_finite in Hle. unfold val_le.
  destruct Hle as [Hlt | [-> Hm]].
  - replace (Z.min e1 e2) with e1 by lia.
    rewrite Z.sub_diag, Z.pow_0_r, Z.mul_1_r.
    destruct (Zdigits2_spec (Z.pos m1) ltac:(lia)) as [Hd1 [_ Hhi1]].
    destruct (Zdigits2_spec (Z.pos m2) ltac:(lia)) as [Hd2 [Hlo2 _]].
    assert (Hd2' : Zdigits2 (Z.pos m2) = 53) by lia.
    rewrite Hd2' in Hlo2. change (2 ^ (53 - 1)) with (2 ^ 52) in Hlo2.
    assert (Hm1 : Z.pos m1 < 2 ^ 53).
    { apply Z.lt_le_trans with (1 := Hhi1). apply Z.pow_le_mono_r; lia. }
    assert (Hp : 2 ^ 1 <= 2 ^ (e2 - e1)) by (apply Z.pow_le_mono_r; lia).
    change (2 ^ 1) with 2 in Hp. change (2 ^ 53) with (2 * 2 ^ 52) in Hm1.
    set (a := 2 ^ 52) in *. set (b := 2 ^ (e2 - e1)) in *. nia.
  - rewrite Z.min_id, Z.sub_diag, Z.pow_0_r. lia.
Qed.

Lemma val_le_mul_r M1 E1 M2 E2 K EK :
  0 < K -> val_le M1 E1 M2 E2 -> val_le (M1 * K) (E1 + EK) (M2 * K) (E2 + EK).
Proof.
  unfold val_le. intros HK H.
  replace (Z.min (E1 + EK) (E2 + EK)) with (Z.min E1 E2 + EK) by lia.
  replace (E1 + EK - (Z.min E1 E2 + EK)) with (E1 - Z.min E1 E2) by lia.
  replace (E2 + EK - (Z.min E1 E2 + EK)) with (E2 - Z.min E1 E2) by lia.
  nia.
Qed.

Lemma val_le_mul_l M1 E1 M2 E2 K EK :
  0 < K -> val_le M1 E1 M2 E2 -> val_le (K * M1) (EK + E1) (K * M2) (EK + E2).
Proof.
  intros HK H. rewrite !(Z.mul_comm K), !(Z.add_comm EK).
  apply val_le_mul_r; assumption.
Qed.

(** The product of two valid positive finite floats, rounded. *)
Lemma SFmul_pos_finite m1 e1 m2 e2 :
  SFmul prec emax (S754_finite false m1 e1) (S754_finite false m2 e2)
    = round_mul false (Z.pos m1 * Z.pos m2) (e1 + e2).
Proof. simpl. apply binary_round_aux_exact. lia. Qed.

(** Multiplication by a positive finite float is monotone. *)
Lemma SFmul_mono_l x y k :
  pos_finite x -> pos_finite y -> pos_finite k ->
  valid_binary x = true -> valid_binary y = true -> valid_binary k = true ->
  SFleb x y = true ->
  SFleb (SFmul prec emax x k) (SFmul prec emax y k) = true.
Proof.
  destruct x as [| | |[|] m1 e1]; try contradiction.
  destruct y as [| | |[|] m2 e2]; try contradiction.
  destruct k as [| | |[|] mk ek]; try contradiction.
  intros _ _ _ V1 V2 Vk Hle. simpl in V1, V2, Vk.
  rewrite !SFmul_pos_finite.
  apply round_mul_mono; try lia.
  - apply product_regime; assumption.
  - apply product_regime; assumption.
  - apply val_le_mul_r; [lia|]. apply SFleb_val_le; assumption.
Qed.

Lemma SFmul_mono_r x k1 k2 :
  pos_finite x -> pos_finite k1 -> pos_finite k2 ->
  valid_binary x = true -> valid_binary k1 = true -> valid_binary k2 = true ->
  SFleb k1 k2 = true ->
  SFleb (SFmul prec emax x k1) (SFmul prec emax x k2) = true.
Proof.
  destruct x as [| | |[|] m e]; try contradiction.
  destruct k1 as [| | |[|] m1 e1]; try contradiction.
  destruct k2 as [| | |[|] m2 e2]; try contradiction.
  intros _ _ _ V V1 V2 Hle. simpl in V, V1, V2.
  rewrite !SFmul_pos_finite.
  apply round_mul_mono; try lia.
  - apply product_regime; assumption.
  - apply product_regime; assumption.
  - apply val_le_mul_l; [lia|]. apply SFleb_val_le; assumption.
Qed.



End RoundMul.

(* ===================================================================== *)
(** * The price adjustment *)
(* ===================================================================== *)

Section PrimFloat.

Import Binary64.
Local Open Scope float_scope.

Lemma mul_mono_l (x y k : float) :
  pos_finite (Prim2SF x) -> pos_finite (Prim2SF y) -> pos_finite (Prim2SF k) ->
  (x <=? y) = true -> (x * k <=? y * k) = true.
Proof.
  intros Hx Hy Hk. rewrite !FloatAxioms.leb_spec, !FloatAxioms.mul_spec.
  apply SFmul_mono_l; auto using Prim2SF_valid.
Qed.

Lemma mul_mono_r (x k1 k2 : float) :
  pos_finite (Prim2SF x) -> pos_finite (Prim2SF k1) -> pos_finite (Prim2SF k2) ->
  (k1 <=? k2) = true -> (x * k1 <=? x * k2) = true.
Proof.
  intros Hx H1 H2. rewrite !FloatAxioms.leb_spec, !FloatAxioms.mul_spec.
  apply SFmul_mono_r; auto using Prim2SF_valid.
Qed.

Lemma pos_finite_between a x b :
  pos_finite a -> pos_finite b ->
  SFleb a x = true -> SFleb x b = true -> pos_finite x.
Proof.
  unfold SFleb.
  destruct a as [| | |[|] ma ea]; try contradiction.
  destruct b as [| | |[|] mb eb]; try contradiction.
  destruct x as [[|]|[|]| |[|] m e]; simpl; intros _ _ H1 H2;
    try discriminate; exact I.
Qed.

Lemma pos_finite_signed x : pos_finite x -> signed false x.
Proof. destruct x as [| | |[|] m e]; simpl; try contradiction; reflexivity. Qed.

Lemma signed_not_nan s x : signed s x -> x <> S754_nan.
Proof. destruct x; simpl; intros H; congruence || contradiction. Qed.

Lemma not_nan_signed x : x <> S754_nan -> exists s, signed s x.
Proof. destruct x as [s|s| |s m e]; simpl; eauto; congruence. Qed.

Lemma signed_above a b : signed false a -> SFltb a b = true -> signed false b.
Proof.
  unfold SFltb.
  destruct a as [sa|sa| |sa ma ea], b as [sb|sb| |sb mb eb]; simpl;
    try contradiction; try discriminate; intros ->; try destruct sb;
    simpl; intros H; try discriminate; reflexivity.
Qed.

Lemma zero_le_signed x : signed false x -> SFleb (S754_zero false) x = true.
Proof.
  destruct x as [s|s| |s m e]; simpl; try contradiction; intros ->; reflexivity.
Qed.

Lemma is_nan_false x : is_nan x = false -> Prim2SF x <> S754_nan.
Proof.
  unfold is_nan. rewrite FloatAxioms.eqb_spec. unfold SFeqb.
  destruct (Prim2SF x); simpl; intros H; congruence.
Qed.

(** A product with a positive finite factor is a number when the other
    factor is. *)
Lemma mul_not_nan x k :
  Prim2SF x <> S754_nan -> pos_finite (Prim2SF k) -> Prim2SF (x * k) <> S754_nan.
Proof.
  intros Hx Hk. rewrite FloatAxioms.mul_spec.
  destruct (not_nan_signed _ Hx) as [s Hs].
  destruct (Prim2SF k) as [| | |[|] mk ek]; try contradiction.
  eapply signed_not_nan, SFmul_signed, Hs.
Qed.

(** Reading back a float written as sign, mantissa and exponent keeps the
    sign. *)
Lemma Prim2SF_SF2Prim_signed s y : signed s y -> signed s (Prim2SF (SF2Prim y)).
Proof.
  destruct y as [s'|s'| |s' m e]; simpl; try contradiction.
  - intros ->. destruct s; reflexivity.
  - intros ->. destruct s; reflexivity.
  - intros ->.
    assert (H : signed false
                  (Prim2SF (Z.ldexp (of_uint63 (Uint63Axioms.of_Z (Z.pos m))) e))).
    { rewrite FloatLemmas.Z_ldexp_spec, FloatAxioms.of_uint63_spec.
      pose proof (Uint63.to_Z_bounded (Uint63Axioms.of_Z (Z.pos m))) as Hb.
      destruct (Uint63Axioms.to_Z _) as [|n|n]; [reflexivity| |lia].
      simpl binary_normalize.
      pose proof (binary_round_signed false n 0) as Hs.
      destruct (binary_round prec emax false n 0) as [s1|s1| |s1 m1 e1];
        simpl in Hs |- *; try assumption.
      subst s1. apply binary_round_signed. }
    destruct s.
    + rewrite FloatAxioms.opp_spec. destruct (Prim2SF _); simpl in *; try contradiction;
        subst; reflexivity.
    + exact H.
Qed.

Lemma round2_signed s v : signed s (Prim2SF v) -> signed s (Prim2SF (Py.round2 v)).
Proof.
  unfold Py.round2. intros H.
  destruct (Prim2SF v) as [s'|s'| |s' m e] eqn:Hv; try (rewrite Hv; exact H).
  simpl in H. subst s'.
  destruct (Py.hundredths m e) as [|n|n].
  - destruct s; reflexivity.
  - apply Prim2SF_SF2Prim_signed.
    replace s with (xorb s false) at 1 by (destruct s; reflexivity).
    apply SFdiv_signed.
  - destruct s; reflexivity.
Qed.

End PrimFloat.

Lemma adjust_price_clamp current_price market_data :
  adjust_price current_price market_data =
    Py.round2
      (Py.max (competitor_price market_data * 0.9)%float
         (Py.min (unclamped_price current_price market_data)
            (competitor_price market_data * 1.1)%float)).
Proof. reflexivity. Qed.

(** C7: when the competitor price of the snapshot is strictly positive, the
    adjusted price is a non-negative number, whatever the current price. *)
Theorem adjust_price_nonneg (current_price : float) (market_data : MarketData) :
  (0 <? competitor_price market_data)%float = true ->
  (0 <=? adjust_price current_price market_data)%float = true.
Proof.
  intros Hc. rewrite adjust_price_clamp.
  set (p := unclamped_price current_price market_data).
  set (c := competitor_price market_data) in *.
  rewrite FloatAxioms.leb_spec. change (Prim2SF 0) with (S754_zero false).
  apply zero_le_signed, round2_signed.
  assert (Hlo : Binary64.signed false (Prim2SF (c * 0.9))).
  { rewrite FloatAxioms.mul_spec. change (Prim2SF 0.9) with (S754_finite false 8106479329266893 (-53)).
    change false with (xorb false false) at 1. apply SFmul_signed.
    rewrite FloatAxioms.ltb_spec in Hc. change (Prim2SF 0) with (S754_zero false) in Hc.
    eapply signed_above; [|exact Hc]. reflexivity. }
  unfold Py.max. destruct (c * 0.9 <? Py.min p (c * 1.1))%float eqn:Hlt.
  - rewrite FloatAxioms.ltb_spec in Hlt. eapply signed_above; eassumption.
  - exact Hlo.
Qed.

Lemma adjust_price_nonneg_witness :
  (0 <=? adjust_price 100.0 Sample.rising_1000)%float = true.
Proof. apply (adjust_price_nonneg 100.0 Sample.rising_1000). reflexivity. Defined.

(** ** The order of primitive floats *)

Section PrimOrder.

Import Binary64.
Local Open Scope float_scope.

Lemma fle_trans x y z : (x <=? y) = true -> (y <=? z) = true -> (x <=? z) = true.
Proof. rewrite !FloatAxioms.leb_spec. apply SFleb_trans. Qed.

Lemma flt_le_trans x y z : (x <? y) = true -> (y <=? z) = true -> (x <? z) = true.
Proof. rewrite !FloatAxioms.leb_spec, !FloatAxioms.ltb_spec. apply SFltb_leb_trans. Qed.

Lemma fle_lt_trans x y z : (x <=? y) = true -> (y <? z) = true -> (x <? z) = true.
Proof. rewrite !FloatAxioms.leb_spec, !FloatAxioms.ltb_spec. apply SFleb_ltb_trans. Qed.

Lemma flt_le x y : (x <? y) = true -> (x <=? y) = true.
Proof. rewrite FloatAxioms.leb_spec, FloatAxioms.ltb_spec. apply SFltb_leb. Qed.

Lemma fle_refl x : Prim2SF x <> S754_nan -> (x <=? x) = true.
Proof. rewrite FloatAxioms.leb_spec. apply SFleb_refl. Qed.

Lemma flt_negb_le x y :
  Prim2SF x <> S754_nan -> Prim2SF y <> S754_nan -> (y <? x) = negb (x <=? y).
Proof. rewrite FloatAxioms.leb_spec, FloatAxioms.ltb_spec. apply SFltb_negb_leb. Qed.

Lemma fle_not_nan x y :
  (x <=? y) = true -> Prim2SF x <> S754_nan /\ Prim2SF y <> S754_nan.
Proof. rewrite FloatAxioms.leb_spec. apply SFleb_not_nan. Qed.

Lemma flt_not_nan x y :
  (x <? y) = true -> Prim2SF x <> S754_nan /\ Prim2SF y <> S754_nan.
Proof. rewrite FloatAxioms.ltb_spec. apply SFltb_not_nan. Qed.

Lemma flt_irrefl_le x y : (x <? y) = true -> (y <=? x) = true -> False.
Proof.
  intros Hlt Hle. destruct (flt_not_nan _ _ Hlt) as [Hx Hy].
  rewrite (flt_negb_le y x Hy Hx), Hle in Hlt. discriminate.
Qed.

(** Two floats that compare equal are the same float when one of them is
    not a zero. *)
Lemma fle_antisym_nonzero x y :
  nonzero_number (Prim2SF x) -> (x <=? y) = true -> (y <=? x) = true -> x = y.
Proof.
  rewrite !FloatAxioms.leb_spec. intros Hx H1 H2. apply Prim2SF_inj.
  destruct (SFleb_antisym _ _ H1 H2) as [H | (s1 & s2 & H & _)]; [exact H|].
  rewrite H in Hx. contradiction.
Qed.


Lemma pos_finite_in (a x b : float) :
  pos_finite (Prim2SF a) -> pos_finite (Prim2SF b) ->
  (a <=? x) = true -> (x <=? b) = true -> pos_finite (Prim2SF x).
Proof. rewrite !FloatAxioms.leb_spec. apply pos_finite_between. Qed.

(** The competitor window of a positive finite price is not degenerate. *)
Lemma window_ordered c :
  pos_finite (Prim2SF c) -> (c * 0.9 <=? c * 1.1) = true.
Proof. intros Hc. apply mul_mono_r; try assumption; reflexivity. Qed.

Lemma in_range_competitor s :
  Reference.in_range s -> pos_finite (Prim2SF (Reference.s_competitor_price s)).
Proof.
  intros (_ & _ & Hlo & Hhi).
  apply (pos_finite_in 80 _ 120); try exact I; [assumption | apply flt_le, Hhi].
Qed.

Lemma in_range_demand s :
  Reference.in_range s -> pos_finite (Prim2SF (Reference.s_demand s)).
Proof.
  intros (Hlo & Hhi & _ & _).
  apply (pos_finite_in 0.5 _ 2.0); try exact I; [assumption | apply flt_le, Hhi].
Qed.

End PrimOrder.

(** ** The clamp *)

Section Clamp.

Import Binary64.
Local Open Scope float_scope.

Variables (p lo hi : float).

(** The clamped price lies in a window that is not degenerate, also when
    the price is NaN. *)
Lemma clamped_in_window :
  (lo <=? hi) = true ->
  (lo <=? Py.max lo (Py.min p hi)) = true /\ (Py.max lo (Py.min p hi) <=? hi) = true.
Proof.
  intros Hwin. destruct (fle_not_nan _ _ Hwin) as [Hlo Hhi].
  unfold Py.max. destruct (lo <? Py.min p hi) eqn:Hlt.
  - split; [apply flt_le, Hlt|].
    unfold Py.min in *. destruct (hi <? p) eqn:Hp.
    + apply fle_refl, Hhi.
    + destruct (flt_not_nan _ _ Hlt) as [_ Hpn].
      rewrite (flt_negb_le p hi Hpn Hhi) in Hp.
      destruct (p <=? hi); [reflexivity | discriminate].
  - split; [apply fle_refl, Hlo | exact Hwin].
Qed.


End Clamp.

(** ** The adjusted price and the competitor window *)

(** C2, as stated, fails: with the stored price 100.0 and the snapshot
    (demand 0.5, competitor price 100.004, falling) the window starts at
    90.0036 and the adjusted price is 90.0, below it. *)
Lemma adjusted_price_below_window :
  (0 <? 100.0)%float = true /\
  Reference.in_range Sample.snapshot_100_004 /\
  (adjust_price 100.0 (Reference.to_market_data Sample.snapshot_100_004)
     <? Reference.s_competitor_price Sample.snapshot_100_004 * 0.9)%float = true.
Proof. repeat split; vm_compute; reflexivity. Qed.

(** C2, amended: for a current price above zero and a snapshot in range,
    the adjusted price is the rounding to two decimals of a value that lies
    within [[competitor_price * 0.9, competitor_price * 1.1]] inclusive. *)
Theorem adjusted_price_rounds_window_value
    (current_price : float) (s : Reference.Snapshot) :
  (0 <? current_price)%float = true ->
  Reference.in_range s ->
  exists v : float,
    (Reference.s_competitor_price s * 0.9 <=? v)%float = true /\
    (v <=? Reference.s_competitor_price s * 1.1)%float = true /\
    adjust_price current_price (Reference.to_market_data s) = Py.round2 v.
Proof.
  intros _ Hs. rewrite adjust_price_clamp. simpl competitor_price.
  set (p := unclamped_price _ _). set (c := Reference.s_competitor_price s).
  exists (Py.max (c * 0.9)%float (Py.min p (c * 1.1)%float)).
  pose proof (window_ordered c (in_range_competitor s Hs)) as Hwin.
  destruct (clamped_in_window p _ _ Hwin) as [H1 H2].
  auto.
Qed.

Lemma adjusted_price_rounds_window_value_witness :
  exists v : float,
    (Reference.s_competitor_price Sample.snapshot_100_004 * 0.9 <=? v)%float = true /\
    (v <=? Reference.s_competitor_price Sample.snapshot_100_004 * 1.1)%float = true /\
    adjust_price 100.0 (Reference.to_market_data Sample.snapshot_100_004)
      = Py.round2 v.
Proof.
  apply (adjusted_price_rounds_window_value 100.0 Sample.snapshot_100_004).
  - reflexivity.
  - repeat split; reflexivity.
Defined.

(** ** The code and the specification's algorithm *)


(** Every current price that is a number and every snapshot in range meet
    the two conditions of the comparison below. *)
Lemma in_range_meets_conditions current_price s :
  is_nan current_price = false -> Reference.in_range s ->
  is_nan (current_price * Reference.s_demand s) = false /\
  ((Reference.s_competitor_price s <? 0)
   || (0 <? Reference.s_competitor_price s))%float = true.
Proof.
  intros Hp Hs. split.
  - pose proof (mul_not_nan current_price (Reference.s_demand s)
                  (is_nan_false _ Hp) (in_range_demand s Hs)) as H.
    unfold is_nan. rewrite FloatAxioms.eqb_spec. unfold SFeqb.
    rewrite SFleb_refl_compare by assumption. reflexivity.
  - destruct Hs as (_ & _ & Hlo & _).
    rewrite (flt_le_trans 0 80 _ eq_refl Hlo). apply orb_true_r.
Qed.








(** ** Rising against falling *)

Section Trend.

Import Binary64.
Local Open Scope float_scope.

Lemma SFleb_pos_signed_true a y :
  pos_finite a -> signed true y -> SFleb a y = false.
Proof.
  unfold SFleb.
  destruct a as [| | |[|] ma ea]; try contradiction.
  destruct y as [s|s| |s m e]; simpl; try contradiction; intros _ ->; reflexivity.
Qed.

(** A float whose products with two positive finite factors lie between
    positive finite bounds is itself positive and finite. *)
Lemma factor_pos_finite (x k k' a b : float) :
  pos_finite (Prim2SF k) -> pos_finite (Prim2SF k') ->
  pos_finite (Prim2SF a) -> pos_finite (Prim2SF b) ->
  (a <=? x * k) = true -> (x * k' <=? b) = true -> pos_finite (Prim2SF x).
Proof.
  rewrite !FloatAxioms.leb_spec, !FloatAxioms.mul_spec.
  destruct (Prim2SF k) as [| | |[|] mk ek]; try contradiction.
  destruct (Prim2SF k') as [| | |[|] mk' ek']; try contradiction.
  intros _ _ Ha Hb.
  destruct (Prim2SF x) as [s|s| |[|] m e] eqn:Hx; intros H1 H2; try exact I;
    exfalso.
  - destruct (Prim2SF a) as [| | |[|] ma ea]; try contradiction.
    destruct s; discriminate.
  - destruct (Prim2SF a) as [| | |[|] ma ea]; try contradiction.
    destruct (Prim2SF b) as [| | |[|] mb eb]; try contradiction.
    destruct s; discriminate.
  - destruct (Prim2SF a); discriminate.
  - rewrite (SFleb_pos_signed_true _ _ Ha) in H1; [discriminate|].
    change true with (xorb true false) at 1.
    apply SFmul_signed. reflexivity.
Qed.

(** The only price that the window of a competitor price of 1000 leaves
    alone under both trends is 1000. *)
Lemma in_both_windows (x : float) :
  (1000 * 0.9 <=? x * 0.9) = true -> (x * 1.1 <=? 1000 * 1.1) = true ->
  x = 1000.
Proof.
  intros Hf Hr.
  assert (Hx : pos_finite (Prim2SF x))
    by (apply (factor_pos_finite x 0.9 1.1 (1000 * 0.9) (1000 * 1.1));
        try exact I; assumption).
  assert (Hn : Prim2SF x <> S754_nan) by (apply signed_not_nan with false,
                                          pos_finite_signed, Hx).
  set (a := 0x1.f3fffffffffffp+9). set (b := 0x1.f400000000001p+9).
  assert (Ha : (a <? x) = true).
  { rewrite (flt_negb_le x a Hn) by discriminate.
    destruct (x <=? a) eqn:Hle; [exfalso|reflexivity].
    apply (flt_irrefl_le (a * 0.9) (1000 * 0.9)); [reflexivity|].
    eapply fle_trans; [exact Hf|]. apply mul_mono_l; try exact I; assumption. }
  assert (Hb : (x <? b) = true).
  { rewrite (flt_negb_le b x) by (discriminate || assumption).
    destruct (b <=? x) eqn:Hle; [exfalso|reflexivity].
    apply (flt_irrefl_le (1000 * 1.1) (b * 1.1)); [reflexivity|].
    eapply fle_trans; [|exact Hr]. apply mul_mono_l; try exact I; assumption. }
  apply Prim2SF_inj.
  rewrite FloatAxioms.ltb_spec in Ha, Hb.
  change (Prim2SF a) with (S754_finite false 8796093022207999 (-43)) in Ha.
  change (Prim2SF b) with (S754_finite false 8796093022208001 (-43)) in Hb.
  change (Prim2SF 1000) with (S754_finite false 8796093022208000 (-43)).
  destruct (Prim2SF x) as [| | |[|] m e]; try contradiction.
  apply SFltb_pos_finite in Ha, Hb.
  assert (e = (-43)%Z /\ Z.pos m = 8796093022208000%Z) as [-> Hm] by lia.
  injection Hm as ->. reflexivity.
Qed.

End Trend.

(** C6: for every price that the competitor window of 1000 leaves alone
    under both snapshots (demand 1.0, competitor price 1000), the adjusted
    price under the rising trend is strictly greater than under the falling
    trend. *)
Theorem rising_beats_falling (p : float) :
  in_window p Sample.rising_1000 = true ->
  in_window p Sample.falling_1000 = true ->
  (adjust_price p Sample.falling_1000 <? adjust_price p Sample.rising_1000)%float
    = true.
Proof.
  unfold in_window, unclamped_price. simpl.
  intros Hr Hf.
  apply andb_prop in Hr as [_ Hr]. apply andb_prop in Hf as [Hf _].
  pose proof (in_both_windows (p * 1)%float Hf Hr) as Hx.
  rewrite !adjust_price_clamp. unfold unclamped_price. simpl.
  rewrite Hx. reflexivity.
Qed.

Lemma rising_beats_falling_witness :
  (adjust_price 1000 Sample.falling_1000 <? adjust_price 1000 Sample.rising_1000)%float
    = true.
Proof. apply (rising_beats_falling 1000); reflexivity. Defined.
Ltac unfold_handler :=
  unfold market_update_webhook, get_pricing, get_all_pricing, health_check,
    try_except, lift, raise, db_contains, db_getitem, db_set_price,
    db_set_last_updated, mbind, M_bind, bind, mret, M_ret, ret.

Lemma py_in_raises key data e : py_in key data = Raise e -> e = TypeError.
Proof. destruct data; simpl; congruence. Qed.

Lemma py_get_raises data key e : py_get data key = Raise e -> e = AttributeError.
Proof. destruct data; simpl; congruence. Qed.

Lemma market_update_webhook_outcome request env db :
  market_update_webhook request env db = webhook_outcome request env db.
Proof.
  unfold webhook_outcome. unfold_handler.
  destruct (Py.str_contains _ _); simpl; [|reflexivity].
  destruct (request_json request) as [data|e]; simpl; [|reflexivity].
  destruct (truthy data); simpl; [|reflexivity].
  destruct (py_in "product_id" data) as [[|]|e] eqn:Hin; simpl;
    [| reflexivity | apply py_in_raises in Hin; subst e; reflexivity].
  destruct (py_get data "product_id") as [pid|e] eqn:Hget; simpl;
    [| apply py_get_raises in Hget; subst e; reflexivity].
  destruct pid as [| b | n | f | key | items | fields]; simpl; try reflexivity.
  destruct (db !! key) as [old|] eqn:Hold; simpl.
  - repeat (first [rewrite Hold | rewrite lookup_insert_eq]; simpl).
    rewrite insert_insert_eq. reflexivity.
  - reflexivity.
Qed.


(** ** Rendering of timestamps *)

Lemma is_digit_digit n : Py.is_digit (Py.digit n) = true.
Proof.
  unfold Py.digit.
  assert (H : n mod 10 < 10) by (apply Nat.mod_upper_bound; lia).
  destruct (n mod 10) as [|[|[|[|[|[|[|[|[|[|k]]]]]]]]]]; try reflexivity; lia.
Qed.

Lemma isoformat_is_iso8601 t : Py.is_iso8601 (Py.isoformat t) = true.
Proof.
  unfold Py.isoformat.
  destruct (Nat.eqb (Py.microsecond t) 0);
    cbv -[Py.is_digit Py.digit Nat.div Nat.modulo];
    rewrite !is_digit_digit; reflexivity.
Qed.

(** ** Successful updates *)

Section SuccessFacts.

Variables (request : Request) (env : Env) (db : gmap string PriceRecord).

Lemma db_contains_true product_id :
  fst (db_contains product_id db) = Ok true ->
  exists key old, product_id = JStr key /\ db !! key = Some old.
Proof.
  destruct product_id as [| b | n | f | key | items | fields]; simpl;
    try discriminate.
  intros H. destruct (db !! key) as [old|] eqn:Hold; [eauto|].
  rewrite bool_decide_eq_false_2 in H by (intros [? ?]; congruence).
  discriminate.
Qed.

Lemma outcome_of_passing data key old :
  passes_checks request db data (JStr key) -> db !! key = Some old ->
  market_update_webhook request env db =
    (Ok (success_response env (JStr key) old), <[key := updated_record env old]> db).
Proof.
  intros (Hct & Hjson & Htruthy & Hin & Hget & _) Hold.
  rewrite market_update_webhook_outcome. unfold webhook_outcome.
  rewrite Hct, Hjson, Htruthy, Hin, Hget, Hold. reflexivity.
Qed.

End SuccessFacts.

(** C4: a request that passes the four validation checks makes the webhook
    store [adjust_price] of the old stored price and the freshly generated
    market data as the product's new price, together with the current
    timestamp; the response carries the product id, the price stored before
    and after the update, the market data and an ISO 8601 timestamp. *)
Theorem webhook_success_writes_adjusted_price request env db data product_id :
  passes_checks request db data product_id ->
  successful_update request env db product_id.
Proof.
  intros Hpass.
  destruct (db_contains_true db product_id) as (key & old & -> & Hold);
    [apply Hpass|].
  exists key, old, (success_response env (JStr key) old),
    (<[key := updated_record env old]> db).
  rewrite (outcome_of_passing request env db data key old Hpass Hold).
  repeat split; try reflexivity; try assumption.
  - apply lookup_insert_eq.
  - apply isoformat_is_iso8601.
Qed.

Lemma webhook_success_witness :
  passes_checks (Sample.json_post Sample.product1_body) Sample.db0
    Sample.product1_body (JStr "product1") /\
  successful_update (Sample.json_post Sample.product1_body) Sample.env Sample.db0
    (JStr "product1").
Proof.
  assert (H : passes_checks (Sample.json_post Sample.product1_body) Sample.db0
                Sample.product1_body (JStr "product1"))
    by (repeat split; vm_compute; reflexivity).
  split; [exact H|].
  exact (webhook_success_writes_adjusted_price _ Sample.env _ _ _ H).
Defined.

(** ** Reads *)

Lemma get_pricing_outcome (product_id : string) (db : gmap string PriceRecord) :
  get_pricing product_id db =
    (match db !! product_id with
     | Some r => Ok r
     | None => Raise (ProductNotFound (JStr product_id))
     end, db).
Proof.
  unfold_handler. destruct (db !! product_id) as [r|] eqn:Hr; simpl.
  - rewrite Hr. reflexivity.
  - reflexivity.
Qed.

(** C9: [GET /pricing/{product_id}] leaves the pricing dictionary as it
    was, returns the stored record when the key exists and 404 otherwise,
    and a second call with no update in between returns the same. *)
Theorem get_pricing_is_pure_read (product_id : string) (db : gmap string PriceRecord) :
  snd (get_pricing product_id db) = db /\
  fst (get_pricing product_id db) =
    match db !! product_id with
    | Some r => Ok r
    | None => Raise (ProductNotFound (JStr product_id))
    end /\
  get_pricing product_id (snd (get_pricing product_id db)) = get_pricing product_id db.
Proof.
  rewrite get_pricing_outcome. simpl. rewrite get_pricing_outcome. auto.
Qed.

(** ** Frame and key set *)

Lemma webhook_outcome_cases request env db :
  (exists e, webhook_outcome request env db = (Raise e, db)) \/
  (exists key old,
     db !! key = Some old /\
     webhook_outcome request env db =
       (Ok (success_response env (JStr key) old), <[key := updated_record env old]> db)).
Proof.
  unfold webhook_outcome.
  destruct (negb _); [eauto|].
  destruct (request_json request) as [data|e]; [|eauto].
  destruct (negb _); [eauto|].
  destruct (py_in "product_id" data) as [[|]|e]; [|eauto|eauto].
  destruct (py_get data "product_id") as [pid|e]; [|eauto].
  destruct pid as [| b | n | f | key | items | fields]; eauto.
  destruct (db !! key) as [old|] eqn:Hold; eauto.
Qed.

Lemma webhook_outcome_lookup_ne request env db resp key other :
  fst (webhook_outcome request env db) = Ok resp ->
  r_product_id resp = JStr key -> other <> key ->
  snd (webhook_outcome request env db) !! other = db !! other.
Proof.
  destruct (webhook_outcome_cases request env db)
    as [[e ->] | (key' & old & Hold & ->)]; simpl; [discriminate|].
  intros [= <-]. simpl. intros [= ->] Hne.
  apply lookup_insert_ne. congruence.
Qed.

(** C10: a successful webhook call for one product changes only that
    product's record: under every other key the stored record (price and
    [last_updated]) is the one from before the call. *)
Theorem webhook_updates_only_its_product request env db resp key other :
  fst (market_update_webhook request env db) = Ok resp ->
  r_product_id resp = JStr key -> other <> key ->
  snd (market_update_webhook request env db) !! other = db !! other.
Proof.
  rewrite market_update_webhook_outcome. apply webhook_outcome_lookup_ne.
Qed.

Lemma webhook_updates_only_its_product_witness :
  snd (market_update_webhook (Sample.json_post Sample.product1_body) Sample.env
         Sample.db0) !! "product2" = Sample.db0 !! "product2".
Proof.
  apply (webhook_updates_only_its_product _ _ _
           (success_response Sample.env (JStr "product1")
              {| price := 100.0; last_updated := Sample.startup |})
           "product1" "product2").
  - vm_compute. reflexivity.
  - reflexivity.
  - discriminate.
Defined.

Lemma webhook_outcome_dom request env db :
  dom (snd (webhook_outcome request env db)) = dom db.
Proof.
  destruct (webhook_outcome_cases request env db)
    as [[e ->] | (key & old & Hold & ->)]; simpl; [reflexivity|].
  rewrite dom_insert_L.
  assert (key ∈ dom db) by (apply elem_of_dom; eauto).
  apply set_eq. intros x. rewrite elem_of_union, elem_of_singleton.
  split; [intros [->|]; assumption | auto].
Qed.

Lemma handle_dom c db : dom (handle c db) = dom db.
Proof.
  destruct c as [request env | product_id | | now]; simpl.
  - rewrite market_update_webhook_outcome. apply webhook_outcome_dom.
  - rewrite get_pricing_outcome. reflexivity.
  - reflexivity.
  - reflexivity.
Qed.

Lemma run_dom calls db : dom (run calls db) = dom db.
Proof.
  unfold run. revert db.
  induction calls as [|c calls IH]; intros db; simpl; [reflexivity|].
  rewrite IH. apply handle_dom.
Qed.

(** C8: at startup the pricing dictionary has exactly the keys [product1]
    (price 100.0) and [product2] (price 50.0); no sequence of calls to the
    webhook and the read endpoints adds or removes a key, and every key
    maps to exactly one record of a price and a [last_updated] timestamp. *)
Theorem pricing_keys_fixed (t1 t2 : Py.datetime) (calls : list Call) :
  dom (pricing_db_init t1 t2) = {["product1"; "product2"]} /\
  pricing_db_init t1 t2 !! "product1" = Some {| price := 100.0; last_updated := t1 |} /\
  pricing_db_init t1 t2 !! "product2" = Some {| price := 50.0; last_updated := t2 |} /\
  dom (run calls (pricing_db_init t1 t2)) = {["product1"; "product2"]} /\
  (forall key, key ∈ dom (run calls (pricing_db_init t1 t2)) ->
     exists p t, forall r,
       run calls (pricing_db_init t1 t2) !! key = Some r <->
       r = {| price := p; last_updated := t |}).
Proof.
  assert (Hdom : dom (pricing_db_init t1 t2) = {["product1"; "product2"]}).
  { unfold pricing_db_init. rewrite !dom_insert_L. set_solver. }
  split; [exact Hdom|]. split; [reflexivity|]. split; [reflexivity|].
  split.
  - rewrite run_dom. exact Hdom.
  - intros key Hkey. apply elem_of_dom in Hkey as [[p t] Hr].
    exists p, t. intros r. rewrite Hr. split; congruence.
Qed.

(** ** Bodies that are not JSON objects *)

(** C5: with [Content-Type: application/json] and the body [5] (a JSON
    number: it parses, is not empty and has no key [product_id]), the test
    ["product_id" not in data] raises [TypeError], which the catch-all turns
    into 500 Internal server error instead of 400 Missing required field;
    the dictionary is left as it was. *)
Theorem number_body_is_internal_error (env : Env) (db : gmap string PriceRecord) :
  truthy (JInt 5) = true /\
  py_in "product_id" (JInt 5) = Raise TypeError /\
  market_update_webhook (Sample.json_post (JInt 5)) env db = (Raise InternalError, db).
Proof. repeat split. Qed.

(** C3: the third and fourth checks do not give their own status on every
    input: the body [true] has no key [product_id] and ends in 500, not in
    400 Missing required field, and the body [{"product_id": []}] names no
    stored product and ends in 500, not in 404; the dictionary is left as it
    was in both cases. *)
Theorem validation_chain_falls_through_to_500 (env : Env) (db : gmap string PriceRecord) :
  market_update_webhook (Sample.json_post (JBool true)) env db
    = (Raise InternalError, db) /\
  market_update_webhook
      (Sample.json_post (JObj [("product_id"%string, JList [])])) env db
    = (Raise InternalError, db).
Proof. split; reflexivity. Qed.

(* ===================================================================== *)
(** * Further properties of the webhook *)
(* ===================================================================== *)

Section WebhookChecks.

Variables (request : Request) (env : Env) (db : gmap string PriceRecord).

(** X1: a request whose [Content-Type] does not contain
    [application/json] is answered with 400 before the body is looked at,
    and the dictionary is left as it was. *)
Theorem webhook_rejects_content_type :
  json_content_type request = false ->
  market_update_webhook request env db = (Raise InvalidContentType, db).
Proof.
  unfold json_content_type. intros H.
  rewrite market_update_webhook_outcome. unfold webhook_outcome.
  rewrite H. reflexivity.
Qed.

(** X2: with a JSON content type, whatever [request.json()] raises is
    answered with 400 Invalid JSON format, and the dictionary is left as it
    was. *)
Theorem webhook_rejects_unparsed_body (e : Exn) :
  json_content_type request = true ->
  request_json request = Raise e ->
  market_update_webhook request env db = (Raise MalformedJSON, db).
Proof.
  unfold json_content_type. intros Hct Hjson.
  rewrite market_update_webhook_outcome. unfold webhook_outcome.
  rewrite Hct, Hjson. reflexivity.
Qed.

(** X3: a parsed body that is falsy ([null], [false], [0], [0.0], [""],
    [[]], [{}]), or an object, array or string that does not contain
    ["product_id"], is answered with 400 Missing required field. *)
Theorem webhook_rejects_missing_field (data : json) :
  json_content_type request = true ->
  request_json request = Ok data ->
  truthy data = false \/ py_in "product_id" data = Ok false ->
  market_update_webhook request env db = (Raise MissingField, db).
Proof.
  unfold json_content_type. intros Hct Hjson Hmiss.
  rewrite market_update_webhook_outcome. unfold webhook_outcome.
  rewrite Hct, Hjson. simpl.
  destruct (truthy data); simpl; [|reflexivity].
  destruct Hmiss as [Hf | ->]; [discriminate | reflexivity].
Qed.

(** X4: when the body has the field and its value can be hashed but names
    no stored product (an unknown string, a number, [null], a boolean), the
    answer is 404 with the value in the message, and the dictionary is left
    as it was. *)
Theorem webhook_unknown_product (data product_id : json) :
  json_content_type request = true ->
  request_json request = Ok data ->
  truthy data = true -> py_in "product_id" data = Ok true ->
  py_get data "product_id" = Ok product_id ->
  hashable product_id = true ->
  (forall key, product_id = JStr key -> db !! key = None) ->
  market_update_webhook request env db = (Raise (ProductNotFound product_id), db).
Proof.
  unfold json_content_type. intros Hct Hjson Ht Hin Hget Hh Hnone.
  rewrite market_update_webhook_outcome. unfold webhook_outcome.
  rewrite Hct, Hjson, Ht, Hin, Hget. simpl.
  destruct product_id as [| b | n | f | key | items | fields];
    try reflexivity; try discriminate.
  rewrite (Hnone key eq_refl). reflexivity.
Qed.

(** X5: whenever the webhook fails, the caller gets an [HTTPException] of
    status 400, 404 or 500, never another exception, and the dictionary
    is left as it was. *)
Theorem webhook_failure_is_http_error (e : Exn) :
  fst (market_update_webhook request env db) = Raise e ->
  snd (market_update_webhook request env db) = db /\
  (error_status e = Some 400%Z \/ error_status e = Some 404%Z
   \/ error_status e = Some 500%Z).
Proof.
  rewrite market_update_webhook_outcome. unfold webhook_outcome.
  repeat (match goal with
          | |- context [match ?x with _ => _ end] => destruct x
          end; simpl; try discriminate);
    intros [= <-]; simpl; auto.
Qed.

(** X6: the webhook succeeds exactly when the content type is JSON and the
    body is a JSON object whose [product_id] field is a string that is a
    key of the dictionary. *)
Theorem webhook_succeeds_iff :
  (exists resp, fst (market_update_webhook request env db) = Ok resp) <->
  (json_content_type request = true /\
   exists fields key,
     request_json request = Ok (JObj fields) /\
     py_get (JObj fields) "product_id" = Ok (JStr key) /\
     is_Some (db !! key)).
Proof.
  rewrite market_update_webhook_outcome.
  unfold webhook_outcome, json_content_type. split.
  - intros [resp H].
    destruct (Py.str_contains _ _); simpl in H; [|discriminate].
    split; [reflexivity|].
    destruct (request_json request) as [data|e]; [|discriminate].
    destruct (truthy data); simpl in H; [|discriminate].
    destruct (py_in "product_id" data) as [[|]|e]; try discriminate.
    destruct (py_get data "product_id") as [pid|e] eqn:Hget; [|discriminate].
    destruct data; try discriminate.
    destruct pid as [| b | n | f | key | items | fields']; try discriminate.
    destruct (db !! key) as [old|] eqn:Hold; [|discriminate].
    exists fields, key. rewrite Hold. eauto.
  - intros (Hct & fields & key & Hjson & Hget & [old Hold]).
    rewrite Hct, Hjson. cbn -[truthy py_in py_get].
    assert (Hin : py_in "product_id" (JObj fields) = Ok true).
    { simpl in *. f_equal.
      destruct (find _ fields) as [kv|] eqn:Hfind; [|discriminate].
      apply existsb_exists. exists kv.
      apply find_some in Hfind. exact Hfind. }
    assert (Ht : truthy (JObj fields) = true).
    { simpl in *. destruct fields; [discriminate | reflexivity]. }
    rewrite Ht, Hin, Hget, Hold. simpl. eauto.
Qed.

End WebhookChecks.

Lemma webhook_rejects_content_type_witness :
  market_update_webhook
    {| headers := [("content-type"%string, "text/plain"%string)];
       request_json := Ok Sample.product1_body |} Sample.env Sample.db0
  = (Raise InvalidContentType, Sample.db0).
Proof. apply webhook_rejects_content_type. reflexivity. Defined.

Lemma webhook_rejects_unparsed_body_witness :
  market_update_webhook
    {| headers := [("content-type"%string, "application/json"%string)];
       request_json := Raise RequestBodyError |} Sample.env Sample.db0
  = (Raise MalformedJSON, Sample.db0).
Proof. apply (webhook_rejects_unparsed_body _ _ _ RequestBodyError); reflexivity. Defined.

Lemma webhook_rejects_missing_field_witness :
  market_update_webhook
    (Sample.json_post (JList [JStr "product1"])) Sample.env Sample.db0
  = (Raise MissingField, Sample.db0).
Proof.
  apply (webhook_rejects_missing_field _ _ _ (JList [JStr "product1"]));
    try reflexivity.
  right. reflexivity.
Defined.

Lemma webhook_unknown_product_witness :
  market_update_webhook
    (Sample.json_post (JObj [("product_id"%string, JInt 7)])) Sample.env Sample.db0
  = (Raise (ProductNotFound (JInt 7)), Sample.db0).
Proof.
  apply (webhook_unknown_product _ _ _ (JObj [("product_id"%string, JInt 7)]));
    try reflexivity.
  discriminate.
Defined.

Lemma webhook_failure_is_http_error_witness :
  snd (market_update_webhook (Sample.json_post (JInt 5)) Sample.env Sample.db0)
    = Sample.db0 /\
  (error_status InternalError = Some 400%Z \/ error_status InternalError = Some 404%Z
   \/ error_status InternalError = Some 500%Z).
Proof.
  apply (webhook_failure_is_http_error (Sample.json_post (JInt 5)) Sample.env
           Sample.db0 InternalError).
  reflexivity.
Defined.

(** ** Reads after writes *)

Lemma webhook_outcome_success request env db resp :
  fst (webhook_outcome request env db) = Ok resp ->
  exists key old,
    db !! key = Some old /\
    resp = success_response env (JStr key) old /\
    snd (webhook_outcome request env db) = <[key := updated_record env old]> db.
Proof.
  destruct (webhook_outcome_cases request env db)
    as [[e ->] | (key & old & Hold & ->)]; simpl; [discriminate|].
  intros [= <-]. eauto.
Qed.

(** X7: after a successful update, [GET /pricing/{product_id}] returns the
    new price of the response and the timestamp of the update. *)
Theorem get_pricing_after_update request env db resp key :
  fst (market_update_webhook request env db) = Ok resp ->
  r_product_id resp = JStr key ->
  fst (get_pricing key (snd (market_update_webhook request env db)))
    = Ok {| price := r_new_price resp; last_updated := now_update env |}.
Proof.
  rewrite market_update_webhook_outcome. intros H Hkey.
  destruct (webhook_outcome_success _ _ _ _ H) as (key' & old & Hold & -> & ->).
  simpl in Hkey. injection Hkey as ->.
  rewrite get_pricing_outcome. simpl. rewrite lookup_insert_eq. reflexivity.
Qed.

Lemma get_pricing_after_update_witness :
  fst (get_pricing "product1"
         (snd (market_update_webhook (Sample.json_post Sample.product1_body)
                 Sample.env Sample.db0)))
    = Ok {| price :=
              r_new_price
                (success_response Sample.env (JStr "product1")
                   {| price := 100.0; last_updated := Sample.startup |});
            last_updated := now_update Sample.env |}.
Proof.
  apply (get_pricing_after_update _ _ _
           (success_response Sample.env (JStr "product1")
              {| price := 100.0; last_updated := Sample.startup |}) "product1");
    reflexivity.
Defined.

(** X8: of two successful updates of the same product, one after the
    other, the second starts from the price the first one stored: its
    [old_price] is the first one's [new_price]. *)
Theorem second_update_starts_from_first request1 env1 request2 env2 db resp1 resp2 :
  fst (market_update_webhook request1 env1 db) = Ok resp1 ->
  fst (market_update_webhook request2 env2
         (snd (market_update_webhook request1 env1 db))) = Ok resp2 ->
  r_product_id resp2 = r_product_id resp1 ->
  r_old_price resp2 = r_new_price resp1.
Proof.
  rewrite !market_update_webhook_outcome. intros H1 H2 Hsame.
  destruct (webhook_outcome_success _ _ _ _ H1) as (k1 & old1 & Hold1 & -> & Hdb).
  rewrite Hdb in H2.
  destruct (webhook_outcome_success _ _ _ _ H2) as (k2 & old2 & Hold2 & -> & _).
  simpl in Hsame. injection Hsame as ->.
  rewrite lookup_insert_eq in Hold2. injection Hold2 as <-. reflexivity.
Qed.

Lemma second_update_starts_from_first_witness :
  r_old_price
    (success_response Sample.env (JStr "product1")
       {| price := 99.0; last_updated := Sample.later |})
  = r_new_price
      (success_response Sample.env (JStr "product1")
         {| price := 100.0; last_updated := Sample.startup |}).
Proof.
  apply (second_update_starts_from_first
           (Sample.json_post Sample.product1_body) Sample.env
           (Sample.json_post Sample.product1_body) Sample.env Sample.db0);
    reflexivity.
Defined.

(** X9: [GET /pricing] returns the dictionary itself and leaves it as it
    was: under every key it shows the record that [GET /pricing/{key}]
    returns, and nothing under the keys for which that call answers 404. *)
Theorem get_all_pricing_agrees_with_get_pricing (db : gmap string PriceRecord) :
  exists m,
    get_all_pricing db = (Ok m, db) /\
    forall key r, m !! key = Some r <-> fst (get_pricing key db) = Ok r.
Proof.
  exists db. split; [reflexivity|].
  intros key r. rewrite get_pricing_outcome. simpl.
  destruct (db !! key) as [r'|]; split; intros H; try discriminate;
    injection H as ->; reflexivity.
Qed.

(* ===================================================================== *)
(** * Rounding of binary64 sums *)
(* ===================================================================== *)

Section RoundAdd.

Import Binary64.
Local Open Scope Z_scope.

Lemma iter_xO m d : Z.pos (Pos.iter xO m d) = Z.pos m * 2 ^ Z.pos d.
Proof.
  induction d as [|d IH] using Pos.peano_ind.
  - change (2 ^ 1) with 2. simpl Pos.iter. lia.
  - rewrite Pos.iter_succ, Pos2Z.inj_succ, Z.pow_succ_r by lia.
    change (Z.pos (Pos.iter xO m d)~0) with (2 * Z.pos (Pos.iter xO m d)).
    rewrite IH. ring.
Qed.

Lemma shl_align_spec m e e' :
  Z.pos (fst (shl_align m e e')) = Z.pos m * 2 ^ (e - Z.min e e') /\
  snd (shl_align m e e') = Z.min e e'.
Proof.
  unfold shl_align. destruct (e' - e) as [|d|d] eqn:Hd; simpl.
  - replace (Z.min e e') with e by lia. rewrite Z.sub_diag. split; lia.
  - replace (Z.min e e') with e by lia. rewrite Z.sub_diag. split; lia.
  - replace (Z.min e e') with e' by lia.
    replace (e - e') with (Z.pos d) by lia. split; [apply iter_xO | reflexivity].
Qed.

Lemma align_spec M E :
  0 < M ->
  0 < fst (align M E) /\
  snd (align M E) <= target (fst (align M E)) (snd (align M E)) /\
  snd (align M E) <= E /\
  fst (align M E) = M * 2 ^ (E - snd (align M E)).
Proof.
  intros HM. unfold align.
  destruct (Z.ltb_spec (target M E) E) as [Hlt|Hge]; simpl.
  - assert (0 < 2 ^ (E - target M E)) by (apply Z.pow_pos_nonneg; lia).
    split; [nia|]. split; [|split; [lia | reflexivity]].
    unfold target at 2. rewrite Zdigits2_shift by lia.
    replace (Zdigits2 M + (E - target M E) + target M E) with (Zdigits2 M + E) by lia.
    fold (target M E). lia.
  - rewrite Z.sub_diag, Z.pow_0_r. repeat split; lia.
Qed.

(** [binary_round], the rounding of sums, is [round_mul] on the aligned
    representation. *)
Lemma binary_round_align s p e :
  binary_round prec emax s p e
    = round_mul s (fst (align (Z.pos p) e)) (snd (align (Z.pos p) e)).
Proof.
  unfold binary_round.
  change (fexp prec emax (Z.pos (digits2_pos p) + e)) with (target (Z.pos p) e).
  destruct (shl_align_spec p e (target (Z.pos p) e)) as [Hm He].
  destruct (shl_align p e (target (Z.pos p) e)) as [mz ez]. simpl in Hm, He.
  rewrite binary_round_aux_exact by lia. rewrite Hm, He.
  unfold align. destruct (Z.ltb_spec (target (Z.pos p) e) e) as [Hlt|Hge]; simpl.
  - replace (Z.min e (target (Z.pos p) e)) with (target (Z.pos p) e) by lia.
    reflexivity.
  - replace (Z.min e (target (Z.pos p) e)) with e by lia.
    rewrite Z.sub_diag, Z.pow_0_r, Z.mul_1_r. reflexivity.
Qed.

(** The order of values, read at any exponent below both. *)
Lemma val_le_common M1 E1 M2 E2 E0 :
  E0 <= E1 -> E0 <= E2 ->
  (val_le M1 E1 M2 E2 <-> M1 * 2 ^ (E1 - E0) <= M2 * 2 ^ (E2 - E0)).
Proof.
  intros H1 H2. unfold val_le. set (m := Z.min E1 E2).
  replace (E1 - E0) with (E1 - m + (m - E0)) by lia.
  replace (E2 - E0) with (E2 - m + (m - E0)) by lia.
  rewrite !Z.pow_add_r by lia.
  assert (0 < 2 ^ (m - E0)) by (apply Z.pow_pos_nonneg; lia).
  set (a := M1 * 2 ^ (E1 - m)). set (b := M2 * 2 ^ (E2 - m)).
  rewrite !Z.mul_assoc. fold a b. split; intros; nia.
Qed.

Lemma val_le_align M1 E1 M2 E2 :
  0 < M1 -> 0 < M2 -> val_le M1 E1 M2 E2 ->
  val_le (fst (align M1 E1)) (snd (align M1 E1))
         (fst (align M2 E2)) (snd (align M2 E2)).
Proof.
  intros H1 H2 Hle.
  destruct (align_spec M1 E1 H1) as (_ & _ & Hs1 & Hf1).
  destruct (align_spec M2 E2 H2) as (_ & _ & Hs2 & Hf2).
  set (E0 := Z.min (snd (align M1 E1)) (snd (align M2 E2))).
  apply (val_le_common _ _ _ _ E0); try lia.
  apply (val_le_common _ _ _ _ E0) in Hle; try lia.
  rewrite Hf1, Hf2, <- !Z.mul_assoc, <- !Z.pow_add_r by lia.
  replace (E1 - snd (align M1 E1) + (snd (align M1 E1) - E0)) with (E1 - E0) by lia.
  replace (E2 - snd (align M2 E2) + (snd (align M2 E2) - E0)) with (E2 - E0) by lia.
  exact Hle.
Qed.

(** The sum of two positive finite floats is the rounding of the exact
    sum, written at the smaller exponent. *)
Lemma SFadd_pos_finite m1 e1 m2 e2 :
  exists S,
    S = Z.pos m1 * 2 ^ (e1 - Z.min e1 e2) + Z.pos m2 * 2 ^ (e2 - Z.min e1 e2) /\
    0 < S /\
    SFadd prec emax (S754_finite false m1 e1) (S754_finite false m2 e2)
      = round_mul false (fst (align S (Z.min e1 e2))) (snd (align S (Z.min e1 e2))).
Proof.
  unfold SFadd. set (ez := Z.min e1 e2).
  destruct (shl_align_spec m1 e1 ez) as [H1 _].
  destruct (shl_align_spec m2 e2 ez) as [H2 _].
  replace (Z.min e1 ez) with ez in H1 by lia.
  replace (Z.min e2 ez) with ez in H2 by lia.
  rewrite <- H1, <- H2. simpl cond_Zopp.
  eexists. split; [reflexivity|]. split; [lia|].
  simpl Z.add. simpl binary_normalize. apply binary_round_align.
Qed.

(** Adding a larger positive finite float gives a larger sum. *)
Lemma SFadd_mono_r a y1 y2 :
  pos_finite a -> pos_finite y1 -> pos_finite y2 ->
  valid_binary y1 = true -> valid_binary y2 = true ->
  SFleb y1 y2 = true ->
  SFleb (SFadd prec emax a y1) (SFadd prec emax a y2) = true.
Proof.
  destruct a as [| | |[|] ma ea]; try contradiction.
  destruct y1 as [| | |[|] m1 e1]; try contradiction.
  destruct y2 as [| | |[|] m2 e2]; try contradiction.
  intros _ _ _ V1 V2 Hle. simpl in V1, V2.
  pose proof (SFleb_val_le _ _ _ _ V1 V2 Hle) as Hval.
  destruct (SFadd_pos_finite ma ea m1 e1) as (S1 & HS1 & Hp1 & ->).
  destruct (SFadd_pos_finite ma ea m2 e2) as (S2 & HS2 & Hp2 & ->).
  destruct (align_spec S1 (Z.min ea e1) Hp1) as (Ha1 & Hr1 & _ & _).
  destruct (align_spec S2 (Z.min ea e2) Hp2) as (Ha2 & Hr2 & _ & _).
  apply round_mul_mono; try assumption.
  apply val_le_align; try assumption.
  set (E0 := Z.min (Z.min ea e1) (Z.min ea e2)).
  apply (val_le_common _ _ _ _ E0); try lia.
  apply (val_le_common _ _ _ _ E0) in Hval; try lia.
  rewrite HS1, HS2, !Z.mul_add_distr_r, <- !Z.mul_assoc, <- !Z.pow_add_r by lia.
  replace (ea - Z.min ea e1 + (Z.min ea e1 - E0)) with (ea - E0) by lia.
  replace (ea - Z.min ea e2 + (Z.min ea e2 - E0)) with (ea - E0) by lia.
  replace (e1 - Z.min ea e1 + (Z.min ea e1 - E0)) with (e1 - E0) by lia.
  replace (e2 - Z.min ea e2 + (Z.min ea e2 - E0)) with (e2 - E0) by lia.
  lia.
Qed.

End RoundAdd.

(* ===================================================================== *)
(** * The simulated market data *)
(* ===================================================================== *)

Section Uniform.

Import Binary64.
Local Open Scope float_scope.

Lemma add_mono_r (a y1 y2 : float) :
  pos_finite (Prim2SF a) -> pos_finite (Prim2SF y1) -> pos_finite (Prim2SF y2) ->
  (y1 <=? y2) = true -> (a + y1 <=? a + y2) = true.
Proof.
  intros Ha H1 H2. rewrite !FloatAxioms.leb_spec, !FloatAxioms.add_spec.
  apply SFadd_mono_r; auto using Prim2SF_valid.
Qed.

(** Every positive finite float is at least the least positive one. *)
Lemma pos_finite_ge_min (x : float) :
  pos_finite (Prim2SF x) -> (0x1p-1074 <=? x) = true.
Proof.
  intros Hx. rewrite FloatAxioms.leb_spec.
  change (Prim2SF 0x1p-1074) with (S754_finite false 1 (-1074)).
  pose proof (Prim2SF_valid x) as Hv.
  destruct (Prim2SF x) as [| | |[|] m e]; try contradiction.
  apply bounded_spec in Hv as [Hv _].
  apply SFleb_pos_finite. lia.
Qed.

(** A positive finite float below 1 is at most the float before 1. *)
Lemma lt_one_le_pred (x : float) :
  pos_finite (Prim2SF x) -> (x <? 1) = true -> (x <=? 0x1.fffffffffffffp-1) = true.
Proof.
  intros Hx. rewrite FloatAxioms.leb_spec, FloatAxioms.ltb_spec.
  change (Prim2SF 1) with (S754_finite false 4503599627370496 (-52)).
  change (Prim2SF 0x1.fffffffffffffp-1)
    with (S754_finite false 9007199254740991 (-53)).
  pose proof (Prim2SF_valid x) as Hv.
  destruct (Prim2SF x) as [| | |[|] m e]; try contradiction.
  apply bounded_spec in Hv as [Hv _].
  destruct (Zdigits2_spec (Z.pos m) ltac:(lia)) as [Hd [Hlo Hhi]].
  intros Hlt. apply SFltb_pos_finite in Hlt. apply SFleb_pos_finite.
  destruct Hlt as [Hlt | [-> Hm]].
  - destruct (Z.eq_dec e (-53)%Z) as [->|Hne]; [right|left; lia].
    split; [reflexivity|].
    assert (Hd53 : (Zdigits2 (Z.pos m) <= 53)%Z) by lia.
    apply (Z.pow_le_mono_r 2%Z) in Hd53; [|lia].
    change (2 ^ 53)%Z with 9007199254740992%Z in Hd53. lia.
  - exfalso.
    assert (Hd53 : Zdigits2 (Z.pos m) = 53%Z) by lia.
    rewrite Hd53 in Hlo. change (2 ^ (53 - 1))%Z with 4503599627370496%Z in Hlo.
    lia.
Qed.

(** A draw of [random()] is a zero or a positive finite float. *)
Lemma draw_cases (u : float) :
  (0 <=? u) = true -> (u <? 1) = true ->
  (exists s, Prim2SF u = S754_zero s) \/ pos_finite (Prim2SF u).
Proof.
  rewrite FloatAxioms.leb_spec, FloatAxioms.ltb_spec.
  change (Prim2SF 0) with (S754_zero false).
  change (Prim2SF 1) with (S754_finite false 4503599627370496 (-52)).
  intros H0 H1. unfold SFleb in H0. unfold SFltb in H1.
  destruct (Prim2SF u) as [s|[|]| |[|] m e]; try discriminate H0; eauto.
  - discriminate H1.
  - right. exact I.
Qed.

(** [a + w * u] for a draw [u] lies between the bounds that the least and
    the greatest draw give. *)
Lemma uniform_between (a w u lo hi : float) :
  pos_finite (Prim2SF a) -> pos_finite (Prim2SF w) ->
  pos_finite (Prim2SF (w * 0x1p-1074)) ->
  pos_finite (Prim2SF (w * 0x1.fffffffffffffp-1)) ->
  (lo <=? a) = true -> (a <=? hi) = true ->
  (lo <=? a + w * 0x1p-1074) = true ->
  (a + w * 0x1.fffffffffffffp-1 <=? hi) = true ->
  (0 <=? u) = true -> (u <? 1) = true ->
  (lo <=? a + w * u) = true /\ (a + w * u <=? hi) = true.
Proof.
  intros Ha Hw Hmin Hmax Hlo Hhi Hlo' Hhi' H0 H1.
  destruct (draw_cases u H0 H1) as [[s Hu] | Hu].
  - assert (Heq : a + w * u = a).
    { apply Prim2SF_inj. rewrite FloatAxioms.add_spec, FloatAxioms.mul_spec, Hu.
      destruct (Prim2SF w) as [| | |[|] mw ew]; try contradiction.
      destruct (Prim2SF a) as [| | |[|] ma ea]; try contradiction.
      reflexivity. }
    rewrite Heq. auto.
  - assert (H2 : (w * 0x1p-1074 <=? w * u) = true)
      by (apply mul_mono_r; try assumption; try exact I;
          apply pos_finite_ge_min, Hu).
    assert (H3 : (w * u <=? w * 0x1.fffffffffffffp-1) = true)
      by (apply mul_mono_r; try assumption; try exact I;
          apply lt_one_le_pred; assumption).
    assert (Hwu : pos_finite (Prim2SF (w * u)))
      by (eapply pos_finite_in; [exact Hmin | exact Hmax | exact H2 | exact H3]).
    split.
    + eapply fle_trans; [exact Hlo'|]. apply add_mono_r; assumption.
    + eapply fle_trans; [|exact Hhi']. apply add_mono_r; assumption.
Qed.

End Uniform.

Lemma market_data_range_of_draws (r : Draws) :
  valid_draws r ->
  (0.5 <=? demand (get_market_data r))%float = true /\
  (demand (get_market_data r) <? 2.0)%float = true /\
  (80 <=? competitor_price (get_market_data r))%float = true /\
  (competitor_price (get_market_data r) <=? 120)%float = true.
Proof.
  intros (Hd0 & Hd1 & Hc0 & Hc1 & Ht).
  unfold get_market_data, Py.uniform. simpl.
  change (2.0 - 0.5)%float with 1.5%float.
  change (120 - 80)%float with 40%float.
  destruct (uniform_between 0.5 1.5 (draw_demand r) 0.5 0x1.fffffffffffffp+0)
    as [H1 H2]; try exact I; try reflexivity; try assumption.
  destruct (uniform_between 80 40 (draw_competitor r) 80 120)
    as [H3 H4]; try exact I; try reflexivity; try assumption.
  split; [exact H1|]. split; [eapply fle_lt_trans; [exact H2 | reflexivity]|].
  split; assumption.
Qed.

(** X11: for draws of [random()] in [[0, 1)] and an index below 3,
    [get_market_data] returns a demand in [[0.5, 2.0)], a competitor price
    in [[80, 120]] and one of the three trends; the competitor price 120.0
    is reached, at the greatest draw below 1. *)
Theorem market_data_in_range (r : Draws) :
  valid_draws r ->
  ((0.5 <=? demand (get_market_data r))%float = true /\
   (demand (get_market_data r) <? 2.0)%float = true /\
   (80 <=? competitor_price (get_market_data r))%float = true /\
   (competitor_price (get_market_data r) <=? 120)%float = true /\
   (trend (get_market_data r) = "rising"%string
    \/ trend (get_market_data r) = "falling"%string
    \/ trend (get_market_data r) = "stable"%string)) /\
  exists r0,
    valid_draws r0 /\ competitor_price (get_market_data r0) = 120%float.
Proof.
  intros Hr. split.
  - destruct (market_data_range_of_draws r Hr) as (H1 & H2 & H3 & H4).
    destruct Hr as (_ & _ & _ & _ & Ht).
    repeat (split; [assumption|]).
    unfold get_market_data, Py.choice. simpl.
    destruct (draw_trend r) as [|[|[|n]]]; simpl; auto. lia.
  - exists {| draw_demand := 0; draw_competitor := 0x1.fffffffffffffp-1;
              draw_trend := 0 |}.
    split; [|reflexivity].
    repeat split; try reflexivity. simpl. lia.
Qed.

Lemma market_data_in_range_witness :
  ((0.5 <=? demand (get_market_data (draws Sample.env)))%float = true /\
   (demand (get_market_data (draws Sample.env)) <? 2.0)%float = true /\
   (80 <=? competitor_price (get_market_data (draws Sample.env)))%float = true /\
   (competitor_price (get_market_data (draws Sample.env)) <=? 120)%float = true /\
   (trend (get_market_data (draws Sample.env)) = "rising"%string
    \/ trend (get_market_data (draws Sample.env)) = "falling"%string
    \/ trend (get_market_data (draws Sample.env)) = "stable"%string)) /\
  exists r0,
    valid_draws r0 /\ competitor_price (get_market_data r0) = 120%float.
Proof.
  apply (market_data_in_range (draws Sample.env)).
  repeat split; try reflexivity. simpl. lia.
Defined.

(* ===================================================================== *)
(** * Bounds on the adjusted and the stored price *)
(* ===================================================================== *)

Section Cents.

Local Open Scope Z_scope.

Lemma div_half_even_ge n d K :
  0 < d -> K * d <= n -> K <= Py.div_half_even n d.
Proof.
  intros Hd Hn. unfold Py.div_half_even.
  assert (K <= n / d) by (apply Z.div_le_lower_bound; lia).
  destruct (2 * (n mod d) ?= d); try destruct (Z.even (n / d)); lia.
Qed.

Lemma div_half_even_le n d K :
  0 < d -> n <= K * d -> Py.div_half_even n d <= K.
Proof.
  intros Hd Hn. unfold Py.div_half_even.
  assert (Hq : n / d <= K) by (apply Z.div_le_upper_bound; lia).
  pose proof (Z.div_mod n d ltac:(lia)) as E.
  pose proof (Z.mod_pos_bound n d Hd) as B.
  destruct (Z.compare_spec (2 * (n mod d)) d); try destruct (Z.even (n / d));
    nia.
Qed.

Lemma cents_between_72_132_all n :
  7200 <= n <= 13200 -> cents_between_72_132 n = true.
Proof.
  intros Hn.
  assert (H : forallb cents_between_72_132 cents_7200_13200 = true)
    by (vm_compute; reflexivity).
  rewrite forallb_forall in H. apply H.
  unfold cents_7200_13200. apply in_map_iff.
  exists (Z.to_nat (n - 7200)). split; [lia|].
  apply in_seq. lia.
Qed.

Lemma cents_rounds_to_itself_all n :
  7200 <= n <= 13200 -> cents_rounds_to_itself n = true.
Proof.
  intros Hn.
  assert (H : forallb cents_rounds_to_itself cents_7200_13200 = true)
    by (vm_compute; reflexivity).
  rewrite forallb_forall in H. apply H.
  unfold cents_7200_13200. apply in_map_iff.
  exists (Z.to_nat (n - 7200)). split; [lia|].
  apply in_seq. lia.
Qed.

End Cents.

Section PriceBounds.

Import Binary64.
Local Open Scope float_scope.

(** Rounding a price between 72 and 132 to two decimals gives the float
    of a count of hundredths between 7200 and 13200. *)
Lemma round2_is_cents (v : float) :
  (72 <=? v) = true -> (v <=? 132) = true ->
  exists n, (7200 <= n <= 13200)%Z /\ Py.round2 v = cents_float n.
Proof.
  intros Hlo Hhi.
  pose proof (pos_finite_in 72 v 132 I I Hlo Hhi) as Hpos.
  pose proof (Prim2SF_valid v) as Hv.
  rewrite FloatAxioms.leb_spec in Hlo, Hhi.
  change (Prim2SF 72) with (S754_finite false 5066549580791808 (-46)) in Hlo.
  change (Prim2SF 132) with (S754_finite false 4644337115725824 (-45)) in Hhi.
  unfold Py.round2.
  destruct (Prim2SF v) as [| | |[|] m e]; try contradiction.
  apply bounded_spec in Hv as [Hv _].
  destruct (Zdigits2_spec (Z.pos m) ltac:(lia)) as [Hd [Hdlo Hdhi]].
  apply SFleb_pos_finite in Hlo, Hhi.
  assert (Hd53 : Zdigits2 (Z.pos m) = 53%Z) by lia.
  rewrite Hd53 in Hdlo, Hdhi.
  change (2 ^ (53 - 1))%Z with 4503599627370496%Z in Hdlo.
  change (2 ^ 53)%Z with 9007199254740992%Z in Hdhi.
  assert (Hn : (7200 <= Py.hundredths m e <= 13200)%Z).
  { assert (He : e = (-46)%Z \/ e = (-45)%Z) by lia.
    destruct He as [-> | ->]; unfold Py.hundredths.
    - change (2 ^ Z.pos 46)%Z with 70368744177664%Z. split.
      + apply div_half_even_ge; lia.
      + apply div_half_even_le; lia.
    - change (2 ^ Z.pos 45)%Z with 35184372088832%Z. split.
      + apply div_half_even_ge; lia.
      + apply div_half_even_le; lia. }
  exists (Py.hundredths m e). split; [exact Hn|].
  destruct (Py.hundredths m e) as [|n|n]; try lia. reflexivity.
Qed.

Lemma round2_between_72_132 (v : float) :
  (72 <=? v) = true -> (v <=? 132) = true ->
  (72 <=? Py.round2 v) = true /\ (Py.round2 v <=? 132) = true.
Proof.
  intros Hlo Hhi. destruct (round2_is_cents v Hlo Hhi) as (n & Hn & ->).
  apply andb_prop. apply (cents_between_72_132_all n Hn).
Qed.

(** Such a rounded price is left alone by another rounding. *)
Lemma round2_twice_72_132 (v : float) :
  (72 <=? v) = true -> (v <=? 132) = true ->
  Py.round2 (Py.round2 v) = Py.round2 v.
Proof.
  intros Hlo Hhi. destruct (round2_is_cents v Hlo Hhi) as (n & Hn & ->).
  pose proof (cents_rounds_to_itself_all n Hn) as H.
  pose proof (cents_between_72_132_all n Hn) as Hb.
  apply andb_prop in H as [H1 H2]. apply andb_prop in Hb as [Hb1 Hb2].
  symmetry. apply fle_antisym_nonzero; try assumption.
  pose proof (pos_finite_in 72 _ 132 I I Hb1 Hb2) as Hp.
  destruct (Prim2SF (cents_float n)) as [| | |[|] m e]; try contradiction.
  exact I.
Qed.

(** The window of a competitor price in [[80, 120]] lies in [[72, 132]]. *)
Lemma window_in_72_132 (c : float) :
  (80 <=? c) = true -> (c <=? 120) = true ->
  (72 <=? c * 0.9) = true /\ (c * 1.1 <=? 132) = true /\
  (c * 0.9 <=? c * 1.1) = true.
Proof.
  intros Hlo Hhi.
  pose proof (pos_finite_in 80 c 120 I I Hlo Hhi) as Hc.
  split; [|split].
  - change 72 with (80 * 0.9). apply mul_mono_l; try exact I; assumption.
  - change 132 with (120 * 1.1). apply mul_mono_l; try exact I; assumption.
  - apply window_ordered, Hc.
Qed.

Lemma adjust_price_between_72_132 (current_price : float) (market_data : MarketData) :
  (80 <=? competitor_price market_data) = true ->
  (competitor_price market_data <=? 120) = true ->
  (72 <=? adjust_price current_price market_data) = true /\
  (adjust_price current_price market_data <=? 132) = true.
Proof.
  intros Hlo Hhi. rewrite adjust_price_clamp.
  destruct (window_in_72_132 _ Hlo Hhi) as (H1 & H2 & Hwin).
  destruct (clamped_in_window (unclamped_price current_price market_data) _ _ Hwin)
    as [H3 H4].
  apply round2_between_72_132.
  - eapply fle_trans; eassumption.
  - eapply fle_trans; eassumption.
Qed.

Lemma adjust_price_two_decimals (current_price : float) (market_data : MarketData) :
  (80 <=? competitor_price market_data) = true ->
  (competitor_price market_data <=? 120) = true ->
  Py.round2 (adjust_price current_price market_data)
    = adjust_price current_price market_data.
Proof.
  intros Hlo Hhi. rewrite adjust_price_clamp.
  destruct (window_in_72_132 _ Hlo Hhi) as (H1 & H2 & Hwin).
  destruct (clamped_in_window (unclamped_price current_price market_data) _ _ Hwin)
    as [H3 H4].
  apply round2_twice_72_132.
  - eapply fle_trans; eassumption.
  - eapply fle_trans; eassumption.
Qed.

End PriceBounds.

(** X12: whatever the current price (a NaN or an infinity too), the price
    adjusted with market data from [get_market_data] lies between 72.0
    and 132.0. *)
Theorem adjusted_price_of_market_data_bounded (current_price : float) (r : Draws) :
  valid_draws r ->
  (72 <=? adjust_price current_price (get_market_data r))%float = true /\
  (adjust_price current_price (get_market_data r) <=? 132)%float = true.
Proof.
  intros Hr. destruct (market_data_range_of_draws r Hr) as (_ & _ & Hlo & Hhi).
  apply adjust_price_between_72_132; assumption.
Qed.

Lemma adjusted_price_of_market_data_bounded_witness :
  (72 <=? adjust_price nan (get_market_data (draws Sample.env)))%float = true /\
  (adjust_price nan (get_market_data (draws Sample.env)) <=? 132)%float = true.
Proof.
  apply (adjusted_price_of_market_data_bounded nan (draws Sample.env)).
  repeat split; try reflexivity. simpl. lia.
Defined.

(** ** The stored prices along a run *)

Section StoredPrices.

Local Open Scope float_scope.

Variable P : float -> Prop.
Hypothesis adjusted :
  forall current_price r, valid_draws r ->
    P (adjust_price current_price (get_market_data r)).

(** A property of every adjusted price that holds of the stored prices
    keeps holding after each call. *)
Lemma handle_keeps_prices c db :
  valid_call c -> all_prices P db -> all_prices P (handle c db).
Proof.
  intros Hc Hdb. destruct c as [request env | product_id | | now]; simpl.
  - rewrite market_update_webhook_outcome.
    destruct (webhook_outcome_cases request env db)
      as [[e ->] | (key & old & Hold & ->)]; simpl; [exact Hdb|].
    intros key' r Hr. destruct (decide (key = key')) as [->|Hne].
    + rewrite lookup_insert_eq in Hr. injection Hr as <-. simpl.
      apply adjusted, Hc.
    + rewrite lookup_insert_ne in Hr by assumption. eapply Hdb, Hr.
  - rewrite get_pricing_outcome. exact Hdb.
  - exact Hdb.
  - exact Hdb.
Qed.

Lemma run_keeps_prices calls : forall db,
  Forall valid_call calls -> all_prices P db -> all_prices P (run calls db).
Proof.
  unfold run. induction calls as [|c calls IH]; intros db Hcalls Hdb; simpl.
  - exact Hdb.
  - inversion Hcalls as [|? ? Hc Hrest]; subst.
    apply IH; [assumption|]. apply handle_keeps_prices; assumption.
Qed.

Lemma init_prices t1 t2 :
  P 100.0 -> P 50.0 -> all_prices P (pricing_db_init t1 t2).
Proof.
  intros H100 H50 key r. unfold pricing_db_init.
  destruct (decide ("product2"%string = key)) as [<-|Hne2].
  - rewrite lookup_insert_eq. intros [= <-]. exact H50.
  - rewrite lookup_insert_ne by assumption.
    destruct (decide ("product1"%string = key)) as [<-|Hne1].
    + rewrite lookup_insert_eq. intros [= <-]. exact H100.
    + rewrite lookup_insert_ne by assumption. rewrite lookup_empty.
      discriminate.
Qed.

End StoredPrices.

(** X13: along every sequence of calls whose webhook calls draw from
    [random()] in [[0, 1)], every stored price lies between 50.0 and
    132.0: a stored price is never negative, infinite or NaN. *)
Theorem stored_prices_stay_in_range (t1 t2 : Py.datetime) (calls : list Call) :
  Forall valid_call calls ->
  forall key r,
    run calls (pricing_db_init t1 t2) !! key = Some r ->
    price_between 50 132 r.
Proof.
  intros Hcalls key r Hr.
  apply (run_keeps_prices (fun p => (50 <=? p)%float = true /\ (p <=? 132)%float = true))
    with (calls := calls) (db := pricing_db_init t1 t2) (key := key);
    try assumption.
  - intros cp d Hd.
    destruct (market_data_range_of_draws d Hd) as (_ & _ & Hlo & Hhi).
    destruct (adjust_price_between_72_132 cp _ Hlo Hhi) as [H1 H2].
    split; [|exact H2]. eapply fle_trans; [|exact H1]. reflexivity.
  - apply init_prices; split; reflexivity.
Qed.

Lemma stored_prices_stay_in_range_witness :
  price_between 50 132 {| price := 99.0; last_updated := Sample.later |}.
Proof.
  apply (stored_prices_stay_in_range Sample.startup Sample.startup
           [PostMarketUpdate (Sample.json_post Sample.product1_body) Sample.env;
            GetPricing "product1"]
           ltac:(repeat constructor; try reflexivity; simpl; lia)
           "product1").
  vm_compute. reflexivity.
Defined.

(** X14: the price adjusted with market data from [get_market_data] is a
    two-decimal price: rounding it to two decimals again returns it
    unchanged. *)
Theorem adjusted_price_is_two_decimal (current_price : float) (r : Draws) :
  valid_draws r ->
  Py.round2 (adjust_price current_price (get_market_data r))
    = adjust_price current_price (get_market_data r).
Proof.
  intros Hr. destruct (market_data_range_of_draws r Hr) as (_ & _ & Hlo & Hhi).
  apply adjust_price_two_decimals; assumption.
Qed.

Lemma adjusted_price_is_two_decimal_witness :
  Py.round2 (adjust_price 100.0 (get_market_data (draws Sample.env)))
    = adjust_price 100.0 (get_market_data (draws Sample.env)).
Proof.
  apply (adjusted_price_is_two_decimal 100.0 (draws Sample.env)).
  repeat split; try reflexivity. simpl. lia.
Defined.

(** X15: along every sequence of calls whose webhook calls draw from
    [random()] in [[0, 1)], every stored price is a two-decimal price:
    [round(price, 2)] is the price itself. *)
Theorem stored_prices_stay_two_decimal (t1 t2 : Py.datetime) (calls : list Call) :
  Forall valid_call calls ->
  forall key r,
    run calls (pricing_db_init t1 t2) !! key = Some r ->
    Py.round2 (price r) = price r.
Proof.
  intros Hcalls key r Hr.
  apply (run_keeps_prices (fun p => Py.round2 p = p))
    with (calls := calls) (db := pricing_db_init t1 t2) (key := key);
    try assumption.
  - intros cp d Hd.
    destruct (market_data_range_of_draws d Hd) as (_ & _ & Hlo & Hhi).
    apply adjust_price_two_decimals; assumption.
  - apply init_prices; reflexivity.
Qed.

Lemma stored_prices_stay_two_decimal_witness :
  Py.round2 (price {| price := 99.0; last_updated := Sample.later |})
    = price {| price := 99.0; last_updated := Sample.later |}.
Proof.
  apply (stored_prices_stay_two_decimal Sample.startup Sample.startup
           [PostMarketUpdate (Sample.json_post Sample.product1_body) Sample.env;
            GetPricing "product1"]
           ltac:(repeat constructor; try reflexivity; simpl; lia)
           "product1").
  vm_compute. reflexivity.
Defined.

(* ===================================================================== *)
(** * Edge cases of the price adjustment *)
(* ===================================================================== *)

Section AdjustEdges.

Import Binary64.
Local Open Scope float_scope.

Lemma is_nan_true x : is_nan x = true -> Prim2SF x = S754_nan.
Proof.
  unfold is_nan. rewrite FloatAxioms.eqb_spec. unfold SFeqb. intros H.
  destruct (Prim2SF x) as [s|s| |s m e] eqn:Hx; try reflexivity;
    rewrite SFleb_refl_compare in H by discriminate; discriminate.
Qed.

Lemma flt_nan_r x y : Prim2SF y = S754_nan -> (x <? y) = false.
Proof.
  intros Hy. rewrite FloatAxioms.ltb_spec, Hy. unfold SFltb.
  destruct (Prim2SF x); reflexivity.
Qed.

Lemma round_mul_opp M E : round_mul true M E = SFopp (round_mul false M E).
Proof.
  unfold round_mul, norm.
  destruct (_ / _)%Z; simpl; try reflexivity.
  destruct (_ <=? _)%Z; reflexivity.
Qed.

Lemma SFmul_neg_finite m1 e1 m2 e2 :
  SFmul prec emax (S754_finite true m1 e1) (S754_finite false m2 e2)
    = SFopp (SFmul prec emax (S754_finite false m1 e1) (S754_finite false m2 e2)).
Proof.
  simpl. rewrite !binary_round_aux_exact by lia. apply round_mul_opp.
Qed.

Lemma SFleb_opp x y : SFleb (SFopp x) (SFopp y) = SFleb y x.
Proof.
  unfold SFleb.
  destruct x as [s1|s1| |s1 m1 e1], y as [s2|s2| |s2 m2 e2]; simpl;
    try destruct s1; try destruct s2; simpl; try reflexivity;
    rewrite (Z.compare_antisym e1 e2);
    change (Pos.compare_cont Eq m2 m1) with (m2 ?= m1)%positive;
    change (Pos.compare_cont Eq m1 m2) with (m1 ?= m2)%positive;
    rewrite (Pos.compare_antisym m1 m2);
    destruct (e1 ?= e2)%Z; simpl; try reflexivity;
    destruct (m1 ?= m2)%positive; reflexivity.
Qed.

(** For a competitor price that is not above zero the window is empty or
    a single point: its upper bound is not above its lower bound. *)
Lemma window_of_nonpositive (c : float) :
  (c <=? 0) = true -> (c * 1.1 <=? c * 0.9) = true.
Proof.
  intros Hc. pose proof (Prim2SF_valid c) as Hv.
  rewrite FloatAxioms.leb_spec in Hc. rewrite FloatAxioms.leb_spec, !FloatAxioms.mul_spec.
  change (Prim2SF 0) with (S754_zero false) in Hc.
  change (Prim2SF 0.9) with (S754_finite false 8106479329266893 (-53)).
  change (Prim2SF 1.1) with (S754_finite false 4953959590107546 (-52)).
  unfold SFleb in Hc.
  destruct (Prim2SF c) as [s|[|]| |[|] m e]; simpl in Hc; try discriminate.
  - destruct s; reflexivity.
  - reflexivity.
  - unfold SF64mul. rewrite !SFmul_neg_finite, SFleb_opp.
    apply (SFmul_mono_r (S754_finite false m e)
             (S754_finite false 8106479329266893 (-53))
             (S754_finite false 4953959590107546 (-52))); try exact I;
      try reflexivity.
    exact Hv.
Qed.

(** With an upper bound that is not above the lower bound, the nested
    [max]/[min] returns the lower bound for every price. *)
Lemma max_min_degenerate (p lo hi : float) :
  (hi <=? lo) = true -> Py.max lo (Py.min p hi) = lo.
Proof.
  intros Hdeg. destruct (fle_not_nan _ _ Hdeg) as [Hhi Hlo].
  unfold Py.max, Py.min.
  destruct (hi <? p) eqn:B.
  - rewrite (flt_negb_le hi lo Hhi Hlo), Hdeg. reflexivity.
  - destruct (lo <? p) eqn:C; [exfalso|reflexivity].
    destruct (flt_not_nan _ _ C) as [_ Hp].
    rewrite (flt_negb_le p hi Hp Hhi) in B.
    apply (flt_irrefl_le lo p C).
    eapply fle_trans; [|exact Hdeg].
    destruct (p <=? hi); [reflexivity | discriminate].
Qed.

End AdjustEdges.

(** X16: when the price reaches the clamp as a NaN (a NaN current price or
    demand, or zero times infinity), the adjusted price is the rounded
    lower bound of the window: the clamp replaces the NaN. *)
Theorem nan_price_becomes_lower_bound (current_price : float) (market_data : MarketData) :
  is_nan (unclamped_price current_price market_data) = true ->
  adjust_price current_price market_data
    = Py.round2 (competitor_price market_data * 0.9)%float.
Proof.
  intros Hnan. apply is_nan_true in Hnan. rewrite adjust_price_clamp.
  f_equal. unfold Py.max, Py.min.
  rewrite (flt_nan_r _ _ Hnan). rewrite (flt_nan_r _ _ Hnan). reflexivity.
Qed.

Lemma nan_price_becomes_lower_bound_witness :
  adjust_price nan Sample.rising_1000 = Py.round2 (1000 * 0.9)%float.
Proof. apply (nan_price_becomes_lower_bound nan Sample.rising_1000). reflexivity. Defined.

(** X17: with a competitor price that is zero or negative the adjusted
    price does not depend on the current price, the demand or the trend:
    it is the rounded lower bound [competitor_price * 0.9]. *)
Theorem nonpositive_competitor_ignores_price
    (current_price : float) (market_data : MarketData) :
  (competitor_price market_data <=? 0)%float = true ->
  adjust_price current_price market_data
    = Py.round2 (competitor_price market_data * 0.9)%float.
Proof.
  intros Hc. rewrite adjust_price_clamp. f_equal.
  apply max_min_degenerate, window_of_nonpositive, Hc.
Qed.

Lemma nonpositive_competitor_ignores_price_witness :
  adjust_price 100.0 (Reference.to_market_data Sample.snapshot_degenerate)
    = Py.round2 (-100 * 0.9)%float.
Proof.
  apply (nonpositive_competitor_ignores_price 100.0
           (Reference.to_market_data Sample.snapshot_degenerate)).
  reflexivity.
Defined.
